(** * Gamepad MCP bridge: event validation, connection manager, dispatch

    A shallow embedding of the TypeScript sources of the gamepad MCP server:
    - [Types]            the event tables and enums of [types.ts];
    - [Validation]       [validateEvent] of [utils/validation.ts], in its
                         table based revision;
    - [WebSocketHandler] the connection manager of
                         [websocket/WebSocketHandler.ts]; the monolithic
                         [index.ts] inlines the same statements as
                         [connectWebSocket] / [sendToWebSocket];
    - [GamepadServer]    [handleCallTool] of [index.ts], in its two shapes;
    - [ValidationEnum]   the enum based revision of [validateEvent];
    - [Resources]        the resource handlers of [index.ts];
    - [ListingWithBooleans], [ListingWithEnums]
                         what the tool listings of [index.ts] publish.

    Raw events are the JSON values decoded from a tool call.  A JSON number
    is a rational here: decoding never yields NaN, and the only tests the
    code applies to numbers are comparisons with -1, 0 and 1, which are exact
    on doubles. *)

From Stdlib Require Import String List Bool QArith Lia PeanoNat.
Import ListNotations.
Close Scope Q_scope.
Open Scope string_scope.
Set Warnings "-register-all".

(** ** JSON values and the JavaScript operations the code applies to them *)

Inductive json : Type :=
| JNull
| JBool (b : bool)
| JNum (q : Q)
| JStr (s : string)
| JArr (items : list json)
| JObj (fields : list (string * json)).

Fixpoint assoc {A : Type} (k : string) (l : list (string * A)) : option A :=
  match l with
  | [] => None
  | (k', v) :: l' => if String.eqb k' k then Some v else assoc k l'
  end.

(** [event.k]: reading a property; [None] is JavaScript's [undefined].
    Only objects decoded from JSON carry the properties the code reads
    ([type], [code], [value], [events]). *)
Definition get (v : json) (k : string) : option json :=
  match v with
  | JObj fields => assoc k fields
  | _ => None
  end.

(** [k in obj] *)
Definition has_key (k : string) (fields : list (string * json)) : bool :=
  match assoc k fields with Some _ => true | None => false end.

(** [arr.includes(s)] on an array of string literals *)
Definition includes (l : list string) (s : string) : bool :=
  existsb (String.eqb s) l.

(** [x < y] on numbers *)
Definition Qltb (x y : Q) : bool := negb (Qle_bool y x).

(** ** Errors thrown by the handlers *)

Inductive ErrorCode := InvalidParams | InvalidRequest | MethodNotFound.

Record McpError := mkMcpError { code : ErrorCode; message : string }.

Inductive result (A : Type) : Type :=
| Ok (a : A)
| Throw (e : McpError).
Arguments Ok {A} a.
Arguments Throw {A} e.

Definition bind {A B : Type} (r : result A) (k : A -> result B) : result B :=
  match r with
  | Ok a => k a
  | Throw e => Throw e
  end.

Notation "x <- c1 ;; c2" := (bind c1 (fun x => c2))
  (at level 61, c1 at next level, right associativity).

(** [arr.map(f)] where [f] may throw: the first exception aborts the map. *)
Fixpoint map_throwing {A B : Type} (f : A -> result B) (l : list A)
  : result (list B) :=
  match l with
  | [] => Ok []
  | x :: l' =>
      y <- f x ;;
      ys <- map_throwing f l' ;;
      Ok (y :: ys)
  end.

(** ** types.ts *)

Module Types.

(** First revision: tables of [{ type, code }] pairs. *)
Definition VALID_BUTTON_EVENTS : list (string * string) :=
  [ ("button", "A"); ("button", "B"); ("button", "X"); ("button", "Y");
    ("button", "LEFT_SHOULDER"); ("button", "RIGHT_SHOULDER");
    ("button", "LEFT_THUMB"); ("button", "RIGHT_THUMB");
    ("button", "BACK"); ("button", "START"); ("button", "GUIDE");
    ("button", "DPAD_UP"); ("button", "DPAD_DOWN");
    ("button", "DPAD_LEFT"); ("button", "DPAD_RIGHT");
    ("keyboard", "space");
    ("mouseButton", "leftClick"); ("mouseButton", "rightClick");
    ("mouseButton", "middleClick") ].

Definition VALID_SLIDER_EVENTS : list (string * string) :=
  [ ("axis", "leftX"); ("axis", "leftY");
    ("axis", "rightX"); ("axis", "rightY");
    ("trigger", "leftTrigger"); ("trigger", "rightTrigger") ].

(** Second revision: one enum per event type ([Object.values] of each). *)
Definition ButtonCode : list string :=
  [ "A"; "B"; "X"; "Y"; "LEFT_SHOULDER"; "RIGHT_SHOULDER";
    "LEFT_THUMB"; "RIGHT_THUMB"; "BACK"; "START"; "GUIDE";
    "DPAD_UP"; "DPAD_DOWN"; "DPAD_LEFT"; "DPAD_RIGHT" ].
Definition AxisCode : list string := [ "leftX"; "leftY"; "rightX"; "rightY" ].
Definition TriggerCode : list string := [ "leftTrigger"; "rightTrigger" ].
Definition MouseButtonCode : list string :=
  [ "leftClick"; "rightClick"; "middleClick" ].
Definition KeyboardCode : list string := [ "space" ].
Definition EventType : list string :=
  [ "button"; "axis"; "trigger"; "mouseButton"; "keyboard" ].

(** The closed code set of an event type, as the enums declare it. *)
Definition codeSet (type : string) : list string :=
  if String.eqb type "button" then ButtonCode
  else if String.eqb type "axis" then AxisCode
  else if String.eqb type "trigger" then TriggerCode
  else if String.eqb type "mouseButton" then MouseButtonCode
  else if String.eqb type "keyboard" then KeyboardCode
  else [].

End Types.

(** ** utils/validation.ts *)

Module Validation.
Import Types.

Definition isValidButtonCode (type code : string) : bool :=
  existsb (fun event => String.eqb (fst event) type && String.eqb (snd event) code)
          VALID_BUTTON_EVENTS.

Definition isValidSliderCode (type code : string) : bool :=
  existsb (fun event => String.eqb (fst event) type && String.eqb (snd event) code)
          VALID_SLIDER_EVENTS.

(** The [typeof] tests of the source are the pattern matches on the JSON
    constructor: [typeof x === 'object'] holds of objects, arrays and
    [null]; [typeof x === 'string'] of [JStr] only, and so on. *)
Definition validateEvent (event : json) : result json :=
  match event with
  | JObj _ | JArr _ =>
      match get event "type", get event "code" with
      | Some (JStr type), Some (JStr code) =>
          if includes ["button"; "mouseButton"; "keyboard"] type then
            if negb (isValidButtonCode type code) then
              Throw (mkMcpError InvalidParams
                       ("Invalid " ++ type ++ " code: " ++ code))
            else
              match get event "value" with
              | Some (JBool _) => Ok event
              | _ =>
                  Throw (mkMcpError InvalidParams
                           ("Invalid value for " ++ type ++ ": must be boolean"))
              end
          else if includes ["axis"; "trigger"] type then
            if negb (isValidSliderCode type code) then
              Throw (mkMcpError InvalidParams
                       ("Invalid " ++ type ++ " code: " ++ code))
            else
              match get event "value" with
              | Some (JNum value) =>
                  if Qltb value (-1 # 1) || Qltb (1 # 1) value then
                    Throw (mkMcpError InvalidParams
                             ("Invalid value for " ++ type
                              ++ ": must be number between -1 and 1"))
                  else Ok event
              | _ =>
                  Throw (mkMcpError InvalidParams
                           ("Invalid value for " ++ type
                            ++ ": must be number between -1 and 1"))
              end
          else
            Throw (mkMcpError InvalidParams ("Invalid event type: " ++ type))
      | _, _ =>
          Throw (mkMcpError InvalidParams
                   "Invalid event format: type and code must be strings")
      end
  | _ =>
      Throw (mkMcpError InvalidParams
               "Invalid event format: event must be an object")
  end.

End Validation.

(** ** websocket/WebSocketHandler.ts

    The handler owns two fields, [ws] and [wsReconnectInterval].  The
    sockets it has constructed and the interval timers it has armed live in
    the runtime; the model keeps them next to the fields so that "how many
    sockets are alive" and "how many timers are armed" can be counted.  A
    socket is named by its position in [sockets], a timer by a fresh
    number.  [console] records every [console.error] call. *)

Module WebSocketHandler.

Inductive ReadyState := CONNECTING | OPEN | CLOSING | CLOSED.

(** A socket of the [ws] library: its state and the frames handed to it.
    A frame is the JSON document whose [JSON.stringify] text is sent. *)
Record WebSocket := mkWebSocket {
  readyState : ReadyState;
  frames : list json
}.

(** One constructor per [console.error] call of the class. *)
Inductive diag :=
| AlreadyConnected
| ConnectingTo (url : string)
| ErrorCreating
| ConnectedOk
| Received (message : json)
| ParseError
| RawMessage (data : string)
| ClosedWith (code : nat) (reason : string)
| SocketError (message : string)
| ConnectionRefused
| AttemptingReconnect
| NotInitialized
| NotOpen (rs : ReadyState)
| Sending (message : json)
| ErrorSending
| ReceivedMcpEvent (message : json).

Record state := mkState {
  ws : option nat;
  wsReconnectInterval : option nat;
  WS_URL : string;
  sockets : list WebSocket;
  intervals : list nat;
  nextInterval : nat;
  console : list diag
}.

Definition set_ws (v : option nat) (s : state) : state :=
  mkState v (wsReconnectInterval s) (WS_URL s) (sockets s)
          (intervals s) (nextInterval s) (console s).

Definition set_wsReconnectInterval (v : option nat) (s : state) : state :=
  mkState (ws s) v (WS_URL s) (sockets s)
          (intervals s) (nextInterval s) (console s).

Definition set_sockets (v : list WebSocket) (s : state) : state :=
  mkState (ws s) (wsReconnectInterval s) (WS_URL s) v
          (intervals s) (nextInterval s) (console s).

Definition log (d : diag) (s : state) : state :=
  mkState (ws s) (wsReconnectInterval s) (WS_URL s) (sockets s)
          (intervals s) (nextInterval s) (console s ++ [d]).

(** [new WebSocketHandler(wsUrl)] *)
Definition constructor (wsUrl : string) : state :=
  mkState None None wsUrl [] [] 0 [].

(** *** The runtime: timers and sockets *)

(** [setInterval(cb, 5000)]: a fresh timer, armed. *)
Definition setInterval (s : state) : nat * state :=
  (nextInterval s,
   mkState (ws s) (wsReconnectInterval s) (WS_URL s) (sockets s)
           (nextInterval s :: intervals s) (S (nextInterval s)) (console s)).

(** [clearInterval(t)] *)
Definition clearInterval (t : nat) (s : state) : state :=
  mkState (ws s) (wsReconnectInterval s) (WS_URL s) (sockets s)
          (filter (fun t' => negb (Nat.eqb t' t)) (intervals s))
          (nextInterval s) (console s).

(** [new WebSocket(url, opts)]: a fresh socket, connecting. *)
Definition newWebSocket (s : state) : nat * state :=
  (length (sockets s),
   set_sockets (sockets s ++ [mkWebSocket CONNECTING []]) s).

Fixpoint update {A : Type} (i : nat) (f : A -> A) (l : list A) : list A :=
  match l, i with
  | [], _ => []
  | x :: l', O => f x :: l'
  | x :: l', S i' => x :: update i' f l'
  end.

Definition readyStateOf (s : state) (id : nat) : option ReadyState :=
  option_map readyState (nth_error (sockets s) id).

Definition set_readyState (id : nat) (rs : ReadyState) (s : state) : state :=
  set_sockets (update id (fun w => mkWebSocket rs (frames w)) (sockets s)) s.

(** [socket.send(message)] of the [ws] library: throws while the socket
    is still connecting ([None]), queues the frame when it is open, and
    drops it once the socket is closing or closed. *)
Definition socket_send (id : nat) (message : json) (s : state)
  : option state :=
  match readyStateOf s id with
  | Some CONNECTING => None
  | Some OPEN =>
      Some (set_sockets
              (update id (fun w => mkWebSocket (readyState w)
                                               (frames w ++ [message]))
                      (sockets s)) s)
  | _ => Some s
  end.

(** [haystack.includes(needle)] on strings *)
Fixpoint str_includes (needle haystack : string) : bool :=
  String.prefix needle haystack
  || match haystack with
     | EmptyString => false
     | String _ rest => str_includes needle rest
     end.

(** *** The methods *)

Definition setupReconnection (s : state) : state :=
  match wsReconnectInterval s with
  | None =>
      let (t, s1) := setInterval s in
      set_wsReconnectInterval (Some t) s1
  | Some _ => s
  end.

(** [connect()].  [ctor_throws] tells whether [new WebSocket(...)] throws;
    the listeners installed by [setupWebSocketListeners] are the
    [handle*] methods below, to which [step] dispatches. *)
Definition connect (ctor_throws : bool) (s : state) : state :=
  let already_open :=
    match ws s with
    | Some id =>
        match readyStateOf s id with
        | Some OPEN => true
        | _ => false
        end
    | None => false
    end in
  if already_open then log AlreadyConnected s
  else
    let s1 := log (ConnectingTo (WS_URL s)) s in
    if ctor_throws then setupReconnection (log ErrorCreating s1)
    else
      let (id, s2) := newWebSocket s1 in
      set_ws (Some id) s2.

Definition handleOpen (s : state) : state :=
  let s1 := log ConnectedOk s in
  match wsReconnectInterval s1 with
  | Some t => set_wsReconnectInterval None (clearInterval t s1)
  | None => s1
  end.

(** [parsed] is the outcome of [JSON.parse(data.toString())]. *)
Definition handleMessage (data : string) (parsed : option json) (s : state)
  : state :=
  match parsed with
  | Some message => log (Received message) s
  | None => log (RawMessage data) (log ParseError s)
  end.

Definition handleClose (code : nat) (reason : string) (s : state) : state :=
  let s1 := log (ClosedWith code reason) s in
  let s2 := set_ws None s1 in
  setupReconnection s2.

Definition handleError (message : string) (s : state) : state :=
  let s1 := log (SocketError message) s in
  if str_includes "ECONNREFUSED" message then log ConnectionRefused s1
  else s1.

(** The callback given to [setInterval]. *)
Definition reconnectTick (ctor_throws : bool) (s : state) : state :=
  connect ctor_throws (log AttemptingReconnect s).

Definition send (event : json) (s : state) : state :=
  match ws s with
  | None => log NotInitialized s
  | Some id =>
      match readyStateOf s id with
      | Some OPEN =>
          let events :=
            match event with
            | JArr items => items
            | _ => [event]
            end in
          let message := JObj [("events", JArr events)] in
          let s1 := log (Sending message) s in
          match socket_send id message s1 with
          | Some s2 => s2
          | None => log ErrorSending s1
          end
      | Some rs => log (NotOpen rs) s
      | None => s
      end
  end.

(** *** The manager driven by its environment

    What can happen to a handler: a call of a public method, a tick of an
    armed timer, or a socket emitting one of the four events it has a
    listener for.  The listeners are bound to the handler, not to the
    socket held in [ws], so a socket that [ws] no longer points to still
    reaches them.  [step] is [None] when the event cannot happen in that
    state (a tick without an armed timer, [open] on a socket that is not
    connecting, an event of a closed or unknown socket).

    From the [ws] library: [open] moves a connecting socket to [OPEN];
    [close] leaves it [CLOSED]; a socket that emits [error] has been moved
    to [CLOSING] and emits [close] afterwards. *)

Inductive event :=
| Connect (ctor_throws : bool)
| Tick (ctor_throws : bool)
| SockOpen (id : nat)
| SockMessage (id : nat) (data : string) (parsed : option json)
| SockClose (id : nat) (code : nat) (reason : string)
| SockError (id : nat) (message : string)
| Send (ev : json).

Definition step (s : state) (e : event) : option state :=
  match e with
  | Connect throws => Some (connect throws s)
  | Tick throws =>
      match intervals s with
      | [] => None
      | _ :: _ => Some (reconnectTick throws s)
      end
  | SockOpen id =>
      match readyStateOf s id with
      | Some CONNECTING => Some (handleOpen (set_readyState id OPEN s))
      | _ => None
      end
  | SockMessage id data parsed =>
      match readyStateOf s id with
      | Some OPEN => Some (handleMessage data parsed s)
      | _ => None
      end
  | SockClose id code reason =>
      match readyStateOf s id with
      | Some CLOSED | None => None
      | Some _ => Some (handleClose code reason (set_readyState id CLOSED s))
      end
  | SockError id message =>
      match readyStateOf s id with
      | Some CLOSED | None => None
      | Some _ => Some (handleError message (set_readyState id CLOSING s))
      end
  | Send ev => Some (send ev s)
  end.

Fixpoint run (s : state) (tr : list event) : option state :=
  match tr with
  | [] => Some s
  | e :: tr' =>
      match step s e with
      | Some s' => run s' tr'
      | None => None
      end
  end.

(** The connection state the specification speaks of, read off the
    fields. *)
Inductive ConnectionState := Disconnected | Connecting | Connected.

Definition connectionState (s : state) : ConnectionState :=
  match ws s with
  | Some id =>
      match readyStateOf s id with
      | Some OPEN => Connected
      | Some CONNECTING => Connecting
      | _ => Disconnected
      end
  | None => Disconnected
  end.

(** Sockets that are alive: connecting or open. *)
Definition alive (w : WebSocket) : bool :=
  match readyState w with
  | CONNECTING | OPEN => true
  | _ => false
  end.

Definition liveSockets (s : state) : nat :=
  length (filter alive (sockets s)).

(** All frames handed to any socket so far, socket by socket. *)
Definition framesSent (s : state) : list json :=
  flat_map frames (sockets s).

(** The armed timers are exactly the one the handler remembers. *)
Definition timer_invariant (s : state) : Prop :=
  intervals s = match wsReconnectInterval s with
                | Some t => [t]
                | None => []
                end.

Definition is_open (e : event) : bool :=
  match e with
  | SockOpen _ => true
  | _ => false
  end.

End WebSocketHandler.

(** ** index.ts: the tool handler

    A handler runs on the server's state and either returns or throws; the
    state it leaves behind is kept in both cases, since an exception does
    not undo the assignments and sends made before it. *)

Module GamepadServer.
Import Validation.

Record server := mkServer {
  lastEvents : list json;
  wsHandler : WebSocketHandler.state
}.

(** [new GamepadServer()]: the constructor builds the handler and calls
    [connect()] on it. *)
Definition constructor : server :=
  mkServer []
    (WebSocketHandler.connect false
       (WebSocketHandler.constructor "ws://127.0.0.1:13123")).

Definition M (A : Type) : Type := server -> result A * server.

Definition ret {A : Type} (a : A) : M A := fun s => (Ok a, s).
Definition throw {A : Type} (c : ErrorCode) (msg : string) : M A :=
  fun s => (Throw (mkMcpError c msg), s).
Definition lift {A : Type} (r : result A) : M A := fun s => (r, s).
Definition bindM {A B : Type} (m : M A) (k : A -> M B) : M B :=
  fun s =>
    match m s with
    | (Ok a, s') => k a s'
    | (Throw e, s') => (Throw e, s')
    end.
Definition modify (f : server -> server) : M unit := fun s => (Ok tt, f s).

Notation "x <-- c1 ;;; c2" := (bindM c1 (fun x => c2))
  (at level 61, c1 at next level, right associativity).
Notation "c1 ;;; c2" := (bindM c1 (fun _ => c2))
  (at level 61, right associativity).

Definition set_lastEvents (v : list json) : M unit :=
  modify (fun s => mkServer v (wsHandler s)).

Definition console_error (d : WebSocketHandler.diag) : M unit :=
  modify (fun s => mkServer (lastEvents s) (WebSocketHandler.log d (wsHandler s))).

(** [this.wsHandler.send(events)]; [this.sendToWebSocket(events)] of the
    monolithic revision has the same body. *)
Definition wsHandler_send (events : list json) : M unit :=
  modify (fun s =>
            mkServer (lastEvents s)
                     (WebSocketHandler.send (JArr events) (wsHandler s))).

(** [request.params] of a tool call: [arguments] is an optional record. *)
Record CallToolRequest := mkRequest {
  name : string;
  arguments : option (list (string * json))
}.

(** The object whose [JSON.stringify] text the handler returns. *)
Record ToolResult := mkToolResult {
  success : bool;
  eventsReceived : nat;
  message : string
}.

(** The guard [!args || !('events' in args) || !Array.isArray(args.events)]:
    the array to validate, when there is one. *)
Definition events_argument (args : option (list (string * json)))
  : option (list json) :=
  match args with
  | None => None
  | Some args =>
      if negb (has_key "events" args) then None
      else
        match assoc "events" args with
        | Some (JArr events) => Some events
        | _ => None
        end
  end.

(** [handleCallTool] of the monolithic [index.ts] and of the revisions of
    the split [index.ts] that return right after sending. *)
Definition handleCallTool (request : CallToolRequest) : M ToolResult :=
  if String.eqb (name request) "send_gamepad_event" then
    match events_argument (arguments request) with
    | None =>
        throw InvalidParams
              "Invalid event message format: missing or invalid events array"
    | Some events =>
        validatedEvents <-- lift (map_throwing validateEvent events) ;;;
        console_error
          (WebSocketHandler.ReceivedMcpEvent
             (JObj [("events", JArr validatedEvents)])) ;;;
        set_lastEvents validatedEvents ;;;
        wsHandler_send validatedEvents ;;;
        ret (mkToolResult true (length validatedEvents)
                          "Events validated and sent successfully")
    end
  else
    throw MethodNotFound ("Unknown tool: " ++ name request).

End GamepadServer.

(** The revision of the split [index.ts] whose handler checks the values
    once more after it has stored and sent the batch. *)

Module GamepadServerRecheck.
Import Validation.
Import GamepadServer.

(** The callback of [validatedEvents.forEach]: a [switch] on
    [event.type]. *)
Definition recheck (event : json) : result unit :=
  match get event "type" with
  | Some (JStr type) =>
      if String.eqb type "button" || String.eqb type "mouseButton"
         || String.eqb type "keyboard" then
        match get event "value" with
        | Some (JBool _) => Ok tt
        | _ =>
            Throw (mkMcpError InvalidParams
                     (type ++ " events require boolean values"))
        end
      else if String.eqb type "axis" then
        match get event "value" with
        | Some (JNum value) =>
            if Qltb value (-1 # 1) || Qltb (1 # 1) value then
              Throw (mkMcpError InvalidParams
                       "Axis values must be numbers between -1 and 1")
            else Ok tt
        | _ =>
            Throw (mkMcpError InvalidParams
                     "Axis values must be numbers between -1 and 1")
        end
      else if String.eqb type "trigger" then
        match get event "value" with
        | Some (JNum value) =>
            if Qltb value (0 # 1) || Qltb (1 # 1) value then
              Throw (mkMcpError InvalidParams
                       "Trigger values must be numbers between 0 and 1")
            else Ok tt
        | _ =>
            Throw (mkMcpError InvalidParams
                     "Trigger values must be numbers between 0 and 1")
        end
      else Ok tt
  | _ => Ok tt
  end.

(** [arr.forEach(f)] where [f] may throw *)
Fixpoint for_each (f : json -> result unit) (l : list json) : result unit :=
  match l with
  | [] => Ok tt
  | x :: l' => _ <- f x ;; for_each f l'
  end.

Definition handleCallTool (request : CallToolRequest) : M ToolResult :=
  if String.eqb (name request) "send_gamepad_event" then
    match events_argument (arguments request) with
    | None =>
        throw InvalidParams
              "Invalid event message format: missing or invalid events array"
    | Some events =>
        validatedEvents <-- lift (map_throwing validateEvent events) ;;;
        console_error
          (WebSocketHandler.ReceivedMcpEvent
             (JObj [("events", JArr validatedEvents)])) ;;;
        set_lastEvents validatedEvents ;;;
        wsHandler_send validatedEvents ;;;
        lift (for_each recheck validatedEvents) ;;;
        ret (mkToolResult true (length validatedEvents)
                          "Events validated and sent successfully")
    end
  else
    throw MethodNotFound ("Unknown tool: " ++ name request).

End GamepadServerRecheck.

(** ** Sample inputs and the answers of the handler *)

Module Samples.
Import WebSocketHandler GamepadServer.

Definition mkEvent (type code : string) (value : json) : json :=
  JObj [("type", JStr type); ("code", JStr code); ("value", value)].

Definition pressA : json := mkEvent "button" "A" (JBool true).
Definition leftX_half : json := mkEvent "axis" "leftX" (JNum (1 # 2)).
Definition trigger_neg : json := mkEvent "trigger" "leftTrigger" (JNum (-1 # 2)).
Definition button_no_code : json := mkEvent "button" "leftX" (JBool true).

(** The success answer for [n] events, and the error for a bad envelope. *)
Definition accepted (n : nat) : ToolResult :=
  mkToolResult true n "Events validated and sent successfully".

Definition bad_envelope : McpError :=
  mkMcpError InvalidParams
    "Invalid event message format: missing or invalid events array".

Definition call (events : json) : CallToolRequest :=
  mkRequest "send_gamepad_event" (Some [("events", events)]).

(** The server right after construction: the first socket is still
    connecting. *)
Definition connecting : server := GamepadServer.constructor.

(** The same server once its socket has reported [open]. *)
Definition connected : server :=
  mkServer []
    (match step (wsHandler GamepadServer.constructor) (SockOpen 0) with
     | Some h => h
     | None => wsHandler GamepadServer.constructor
     end).

(** The first connection attempt is refused, the timer ticks twice while
    the endpoint accepts no handshake. *)
Definition stalled_reconnect : list event :=
  [ Connect false;
    SockError 0 "connect ECONNREFUSED 127.0.0.1:13123";
    SockClose 0 1006 "";
    Tick false;
    Tick false ].

End Samples.

(** ** utils/validation.ts, enum based revision

    This revision tests truthiness ([!event.type], [!event.code]) and builds
    its messages from arbitrary values, so the model needs JavaScript's
    conversion of a value to text.  The text of a number is left to
    [number_text]; the conversion of an object that carries its own
    [toString] property throws a [TypeError], which is an exception of its
    own kind. *)

Module ValidationEnum.
Import Types.

Inductive outcome (A : Type) : Type :=
| Returns (a : A)
| Throws (e : McpError)
| ThrowsTypeError.
Arguments Returns {A} a.
Arguments Throws {A} e.
Arguments ThrowsTypeError {A}.

(** [!v] *)
Definition falsy (v : option json) : bool :=
  match v with
  | None => true
  | Some JNull => true
  | Some (JBool b) => negb b
  | Some (JNum q) => Qeq_bool q (0 # 1)
  | Some (JStr s) => String.eqb s ""
  | Some (JArr _) => false
  | Some (JObj _) => false
  end.

(** [Object.values(E).includes(v)] for an enum [E] of strings: only a
    string can be equal to a member. *)
Definition includes_value (l : list string) (v : option json) : bool :=
  match v with
  | Some (JStr s) => includes l s
  | _ => false
  end.

(** [values.join(', ')] *)
Definition join (sep : string) (l : list string) : string :=
  String.concat sep l.

Section Text.
Variable number_text : Q -> string.

(** The text a template literal makes of a value; [None] when the
    conversion throws. *)
Fixpoint to_text (v : json) : option string :=
  match v with
  | JNull => Some "null"
  | JBool true => Some "true"
  | JBool false => Some "false"
  | JNum q => Some (number_text q)
  | JStr s => Some s
  | JArr items =>
      (fix join_items (l : list json) : option string :=
         match l with
         | [] => Some ""
         | x :: l' =>
             match (match x with
                    | JNull => Some ""
                    | _ => to_text x
                    end) with
             | None => None
             | Some a =>
                 match l' with
                 | [] => Some a
                 | _ :: _ =>
                     match join_items l' with
                     | Some b => Some (a ++ "," ++ b)
                     | None => None
                     end
                 end
             end
         end) items
  | JObj fields =>
      if has_key "toString" fields then None else Some "[object Object]"
  end.

Definition template (v : option json) : option string :=
  match v with
  | None => Some "undefined"
  | Some v => to_text v
  end.

(** [throw new McpError(ErrorCode.InvalidParams, msg)] where building
    [msg] may itself throw. *)
Definition throw_invalid {A : Type} (msg : option string) : outcome A :=
  match msg with
  | Some m => Throws (mkMcpError InvalidParams m)
  | None => ThrowsTypeError
  end.

Definition validateAnalogValue (value : option json) : outcome unit :=
  match value with
  | Some (JNum v) =>
      if Qltb v (-1 # 1) || Qltb (1 # 1) v then
        Throws (mkMcpError InvalidParams
                  "Analog value must be a number between -1 and 1")
      else Returns tt
  | _ =>
      Throws (mkMcpError InvalidParams
                "Analog value must be a number between -1 and 1")
  end.

(** One [case] of the [switch] for a boolean valued type. *)
Definition check_discrete (label what : string) (codes : list string)
           (event : json) : outcome json :=
  if negb (includes_value codes (get event "code")) then
    throw_invalid
      (option_map (fun c => "Invalid " ++ label ++ " code: " ++ c
                            ++ ". Must be one of: " ++ join ", " codes)
                  (template (get event "code")))
  else
    match get event "value" with
    | Some (JBool _) => Returns event
    | _ => Throws (mkMcpError InvalidParams (what ++ " value must be boolean"))
    end.

(** One [case] of the [switch] for a number valued type. *)
Definition check_analog (label : string) (codes : list string)
           (event : json) : outcome json :=
  if negb (includes_value codes (get event "code")) then
    throw_invalid
      (option_map (fun c => "Invalid " ++ label ++ " code: " ++ c
                            ++ ". Must be one of: " ++ join ", " codes)
                  (template (get event "code")))
  else
    match validateAnalogValue (get event "value") with
    | Returns _ => Returns event
    | Throws e => Throws e
    | ThrowsTypeError => ThrowsTypeError
    end.

Definition validateEvent (event : json) : outcome json :=
  match event with
  | JObj _ | JArr _ =>
      if falsy (get event "type")
         || negb (includes_value EventType (get event "type")) then
        throw_invalid
          (option_map (fun t => "Invalid event type: " ++ t
                                ++ ". Must be one of: " ++ join ", " EventType)
                      (template (get event "type")))
      else if falsy (get event "code") then
        Throws (mkMcpError InvalidParams "Event code is required")
      else
        match get event "type" with
        | Some (JStr type) =>
            if String.eqb type "button" then
              check_discrete "button" "Button" ButtonCode event
            else if String.eqb type "axis" then
              check_analog "axis" AxisCode event
            else if String.eqb type "trigger" then
              check_analog "trigger" TriggerCode event
            else if String.eqb type "mouseButton" then
              check_discrete "mouse button" "Mouse button" MouseButtonCode event
            else if String.eqb type "keyboard" then
              check_discrete "keyboard" "Keyboard" KeyboardCode event
            else Returns event
        | _ => Returns event
        end
  | _ => Throws (mkMcpError InvalidParams "Event must be an object")
  end.

End Text.

(** The constants the enum based [types.ts] exports under the names of the
    tables. *)
Definition VALID_BUTTON_EVENTS : list string := ButtonCode.
Definition VALID_SLIDER_EVENTS : list string := AxisCode ++ TriggerCode.

End ValidationEnum.

(** ** index.ts: the resource handlers *)

Module Resources.

Record Resource := mkResource {
  uri : string;
  name : string;
  mimeType : string;
  description : string
}.

(** The handler of [ListResourcesRequestSchema]. *)
Definition handleListResources : list Resource :=
  [ mkResource "gamepad://events" "Gamepad Events" "application/json"
               "Current gamepad event state";
    mkResource "gamepad://valid-events" "Valid Gamepad Events"
               "application/json" "List of all valid gamepad events" ].

(** One entry of [contents]; [text] is the document whose
    [JSON.stringify(_, null, 2)] text the handler returns. *)
Record Contents := mkContents {
  contents_uri : string;
  contents_mimeType : string;
  text : json
}.

(** The handler of [ReadResourceRequestSchema].  [buttonEvents] and
    [sliderEvents] are the constants [VALID_BUTTON_EVENTS] and
    [VALID_SLIDER_EVENTS] in scope: the tables of the file itself in the
    monolithic [index.ts], the imports from [types.ts] otherwise. *)
Definition handleReadResource (buttonEvents sliderEvents : json)
           (request_uri : string) (s : GamepadServer.server)
  : result (list Contents) :=
  if String.eqb request_uri "gamepad://events" then
    Ok [ mkContents request_uri "application/json"
           (JObj [("events", JArr (GamepadServer.lastEvents s))]) ]
  else if String.eqb request_uri "gamepad://valid-events" then
    Ok [ mkContents request_uri "application/json"
           (JObj [("buttonEvents", buttonEvents);
                  ("sliderEvents", sliderEvents)]) ]
  else
    Throw (mkMcpError InvalidRequest ("Unknown resource: " ++ request_uri)).

(** A table of [{ type, code }] pairs as a document. *)
Definition table_json (tbl : list (string * string)) : json :=
  JArr (map (fun event => JObj [("type", JStr (fst event));
                                ("code", JStr (snd event))]) tbl).

(** An array of enum values as a document. *)
Definition codes_json (codes : list string) : json :=
  JArr (map JStr codes).

(** The read handler with the tables of the first [types.ts]. *)
Definition readWithTables : string -> GamepadServer.server -> result (list Contents) :=
  handleReadResource (table_json Types.VALID_BUTTON_EVENTS)
                     (table_json Types.VALID_SLIDER_EVENTS).

(** The read handler with the constants of the enum based [types.ts]. *)
Definition readWithEnums : string -> GamepadServer.server -> result (list Contents) :=
  handleReadResource (codes_json ValidationEnum.VALID_BUTTON_EVENTS)
                     (codes_json ValidationEnum.VALID_SLIDER_EVENTS).

End Resources.

(** ** index.ts: the tool listings *)

(** The [examples] array of the listing in the monolithic [index.ts] (the
    split revision with the long description has the same array). *)
Module ListingWithBooleans.

Definition event (type code : string) (value : json) : json :=
  JObj [("type", JStr type); ("code", JStr code); ("value", value)].

Definition example (name : string) (events : list json) : json :=
  JObj [("name", JStr name);
        ("parameters", JObj [("events", JArr events)])].

Definition examples : list json :=
  [ example "Press A button" [ event "button" "A" (JBool true) ];
    example "Move left stick"
      [ event "axis" "leftX" (JNum (1 # 2));
        event "axis" "leftY" (JNum (-1 # 2)) ];
    example "Multiple button combination"
      [ event "button" "LEFT_SHOULDER" (JBool true);
        event "button" "A" (JBool true) ];
    example "Mouse click" [ event "mouseButton" "leftClick" (JBool true) ];
    example "Press space" [ event "keyboard" "space" (JBool true) ] ].

End ListingWithBooleans.

(** The revision of the split [index.ts] that declares its own enums and
    builds the listing from them; its handler is [GamepadServerRecheck]. *)
Module ListingWithEnums.
Import ListingWithBooleans.

Definition ButtonCode : list string :=
  [ "A"; "B"; "X"; "Y"; "LEFT_SHOULDER"; "RIGHT_SHOULDER";
    "LEFT_THUMB"; "RIGHT_THUMB"; "BACK"; "START"; "GUIDE";
    "DPAD_UP"; "DPAD_DOWN"; "DPAD_LEFT"; "DPAD_RIGHT";
    "LEFT_STICK_UP"; "LEFT_STICK_DOWN"; "LEFT_STICK_LEFT"; "LEFT_STICK_RIGHT";
    "RIGHT_STICK_UP"; "RIGHT_STICK_DOWN"; "RIGHT_STICK_LEFT";
    "RIGHT_STICK_RIGHT" ].

Definition AxisCode : list string :=
  [ "leftX"; "leftY"; "rightX"; "rightY"; "dpadHorz"; "dpadVert" ].

Definition TriggerCode : list string := [ "leftTrigger"; "rightTrigger" ].

Definition MouseButtonCode : list string :=
  [ "leftClick"; "rightClick"; "middleClick" ].

Definition KeyboardCode : list string :=
  [ "a"; "b"; "c"; "0"; "1"; "numpad_0"; "numpad_1";
    "backspace"; "delete"; "enter"; "tab"; "escape";
    "up"; "down"; "left"; "right"; "home"; "end"; "pageup"; "pagedown";
    "f1"; "alt"; "control"; "shift"; "space"; "windows";
    "play"; "pause"; "mute"; "fn" ].

Definition EventType : list string :=
  [ "button"; "axis"; "trigger"; "mouseButton"; "keyboard" ].

(** The [enum] the schema gives for [code]. *)
Definition code_enum : list string :=
  ButtonCode ++ AxisCode ++ TriggerCode ++ MouseButtonCode ++ KeyboardCode.

Definition inputSchema : json :=
  JObj [ ("type", JStr "object");
         ("properties",
          JObj [ ("events",
                  JObj [ ("type", JStr "array");
                         ("items",
                          JObj [ ("type", JStr "object");
                                 ("properties",
                                  JObj [ ("type",
                                          JObj [ ("type", JStr "string");
                                                 ("enum", JArr (map JStr EventType)) ]);
                                         ("code",
                                          JObj [ ("type", JStr "string");
                                                 ("enum", JArr (map JStr code_enum)) ]);
                                         ("value",
                                          JObj [ ("type", JStr "number");
                                                 ("description", JStr "Event value") ]) ]);
                                 ("required",
                                  JArr [JStr "type"; JStr "code"; JStr "value"]) ]) ]) ]);
         ("required", JArr [JStr "events"]) ].

Definition examples : list json :=
  [ example "Press A button" [ event "button" "A" (JNum (1 # 1)) ];
    example "Move left stick"
      [ event "axis" "leftX" (JNum (1 # 2));
        event "axis" "leftY" (JNum (-1 # 2)) ];
    example "Press shoulder buttons"
      [ event "button" "LEFT_SHOULDER" (JNum (1 # 1));
        event "button" "RIGHT_SHOULDER" (JNum (1 # 1)) ];
    example "Mouse click" [ event "mouseButton" "leftClick" (JNum (1 # 1)) ];
    example "Press space" [ event "keyboard" "space" (JNum (1 # 1)) ] ].

Definition handleListTools : json :=
  JObj [ ("tools",
          JArr [ JObj [ ("name", JStr "send_gamepad_event");
                        ("description",
                         JStr "Send gamepad events to control the game.");
                        ("inputSchema", inputSchema);
                        ("examples", JArr examples) ] ]) ].

End ListingWithEnums.

(** A client that calls the tool with the [parameters] of a published
    example. *)
Definition call_example (example : json) : GamepadServer.CallToolRequest :=
  GamepadServer.mkRequest "send_gamepad_event"
    (match get example "parameters" with
     | Some (JObj parameters) => Some parameters
     | _ => None
     end).

(** ** Notions used to state the properties of the manager *)

Module Traces.
Import WebSocketHandler.

(** The handle, when set, names the socket constructed last. *)
Definition handle_invariant (s : state) : Prop :=
  match ws s with
  | Some id => S id = length (sockets s)
  | None => True
  end.

Definition is_send (e : event) : bool :=
  match e with
  | Send _ => true
  | _ => false
  end.

Definition count_sends (tr : list event) : nat :=
  length (filter is_send tr).

(** The frame [send] builds for a batch. *)
Definition frame_of (batch : list json) : json :=
  JObj [("events", JArr batch)].

(** A server handling the batches one after the other. *)
Definition submit_all (batches : list (list json)) (s : GamepadServer.server)
  : GamepadServer.server :=
  fold_left (fun s batch =>
               snd (GamepadServer.handleCallTool
                      (GamepadServer.mkRequest "send_gamepad_event"
                         (Some [("events", JArr batch)])) s))
            batches s.

(** The stalled reconnection of [Samples], followed by the third socket
    opening and the second one reporting that its handshake timed out;
    the close of the second socket is still to come. *)
Definition stale_timeout : list event :=
  Samples.stalled_reconnect
  ++ [ SockOpen 2; SockError 1 "Opening handshake has timed out" ].

Definition before_stale_close : state :=
  match run (constructor "ws://127.0.0.1:13123") stale_timeout with
  | Some s => s
  | None => constructor "ws://127.0.0.1:13123"
  end.

(** The stalled reconnection of [Samples], followed by the second socket
    timing out and closing, and then the third socket opening. *)
Definition stale_open : list event :=
  Samples.stalled_reconnect
  ++ [ SockError 1 "Opening handshake has timed out";
       SockClose 1 1006 "";
       SockOpen 2 ].

(** The events that run [connect()]. *)
Definition is_connect (e : event) : bool :=
  match e with
  | Connect _ | Tick _ => true
  | _ => false
  end.

End Traces.

(** * Properties *)

(** ** Numbers and tables *)

Lemma Qltb_lt (x y : Q) : Qltb x y = true <-> (x < y)%Q.
Proof.
  unfold Qltb. rewrite negb_true_iff. split; intro H.
  - apply Qnot_le_lt. intro Hle. apply Qle_bool_iff in Hle. congruence.
  - destruct (Qle_bool y x) eqn:E; [|reflexivity].
    apply Qle_bool_iff in E. exfalso. exact (Qlt_not_le _ _ H E).
Qed.

Lemma in_range_iff (v : Q) :
  Qltb v (-1 # 1) || Qltb (1 # 1) v = false <->
  ((-1 # 1) <= v)%Q /\ (v <= (1 # 1))%Q.
Proof.
  rewrite orb_false_iff. split.
  - intros [H1 H2]. split; apply Qnot_lt_le; intro H;
      apply Qltb_lt in H; congruence.
  - intros [H1 H2]. split.
    + destruct (Qltb v (-1 # 1)) eqn:E; [|reflexivity].
      apply Qltb_lt in E. exfalso. exact (Qlt_not_le _ _ E H1).
    + destruct (Qltb (1 # 1) v) eqn:E; [|reflexivity].
      apply Qltb_lt in E. exfalso. exact (Qlt_not_le _ _ E H2).
Qed.

(** A table lookup is membership in the codes the table lists for the
    type. *)
Lemma table_lookup (tbl : list (string * string)) (type code : string) :
  existsb (fun event => String.eqb (fst event) type && String.eqb (snd event) code) tbl
  = true
  <-> In code (map snd (filter (fun event => String.eqb (fst event) type) tbl)).
Proof.
  induction tbl as [|[t c] tbl IH]; simpl.
  - split; [discriminate | tauto].
  - destruct (String.eqb t type) eqn:Et; simpl.
    + rewrite orb_true_iff, IH, String.eqb_eq. tauto.
    + exact IH.
Qed.

Lemma button_table_codeSet (type code : string) :
  In type ["button"; "mouseButton"; "keyboard"] ->
  (Validation.isValidButtonCode type code = true <-> In code (Types.codeSet type)).
Proof.
  intros Ht. unfold Validation.isValidButtonCode. rewrite table_lookup.
  simpl in Ht. destruct Ht as [<-|[<-|[<-|[]]]]; reflexivity.
Qed.

Lemma slider_table_codeSet (type code : string) :
  In type ["axis"; "trigger"] ->
  (Validation.isValidSliderCode type code = true <-> In code (Types.codeSet type)).
Proof.
  intros Ht. unfold Validation.isValidSliderCode. rewrite table_lookup.
  simpl in Ht. destruct Ht as [<-|[<-|[]]]; reflexivity.
Qed.

Lemma get_type_object (e : json) (k : string) (v : json) :
  get e k = Some v -> exists fields, e = JObj fields.
Proof. destruct e; simpl; try discriminate. eauto. Qed.

(** ** Discrete events *)

(** C4. For an event of type button, mouseButton or keyboard,
    [validateEvent] succeeds exactly when the code is in the code set of
    that type and the value is a boolean; a code outside that set, such as
    a code of another type, is rejected as an invalid code. *)
Theorem validateEvent_discrete_iff (e : json) (type : string) :
  get e "type" = Some (JStr type) ->
  In type ["button"; "mouseButton"; "keyboard"] ->
  ((exists r, Validation.validateEvent e = Ok r) <->
   (exists c b, get e "code" = Some (JStr c) /\ In c (Types.codeSet type)
                /\ get e "value" = Some (JBool b)))
  /\ (forall c, get e "code" = Some (JStr c) -> ~ In c (Types.codeSet type) ->
        Validation.validateEvent e
        = Throw (mkMcpError InvalidParams ("Invalid " ++ type ++ " code: " ++ c))).
Proof.
  intros Hty Hin.
  destruct (get_type_object _ _ _ Hty) as [fields ->].
  assert (Hinc : includes ["button"; "mouseButton"; "keyboard"] type = true).
  { simpl in Hin. destruct Hin as [<-|[<-|[<-|[]]]]; reflexivity. }
  pose proof (button_table_codeSet type) as Htab.
  unfold Validation.validateEvent. rewrite Hty.
  destruct (get (JObj fields) "code") as [[ | | |c| | ]|] eqn:Hc;
    try (split; [split; [intros [r Hr]; discriminate
                        | intros (c' & b' & Hc' & _); discriminate]
                | intros c' Hc'; discriminate]).
  rewrite Hinc.
  destruct (Validation.isValidButtonCode type c) eqn:Hv; cbn [negb].
  - apply (Htab c Hin) in Hv. split.
    + destruct (get (JObj fields) "value") as [[ |b| | | | ]|] eqn:Hval;
        (split; [intros [r Hr]; try discriminate; eauto 6
                | intros (c' & b' & Hc' & _ & Hb'); try discriminate; eauto]).
    + intros c' Hc' Hn. injection Hc' as <-. contradiction.
  - split.
    + split; [intros [r Hr]; discriminate|].
      intros (c' & b & Hc' & Hcin & _). injection Hc' as <-.
      apply (Htab c Hin) in Hcin. congruence.
    + intros c' Hc' _. injection Hc' as <-. reflexivity.
Qed.

Lemma validateEvent_discrete_iff_witness :
  ((exists r, Validation.validateEvent Samples.pressA = Ok r) <->
   (exists c b, get Samples.pressA "code" = Some (JStr c)
                /\ In c (Types.codeSet "button")
                /\ get Samples.pressA "value" = Some (JBool b)))
  /\ (forall c, get Samples.pressA "code" = Some (JStr c) ->
        ~ In c (Types.codeSet "button") ->
        Validation.validateEvent Samples.pressA
        = Throw (mkMcpError InvalidParams ("Invalid " ++ "button" ++ " code: " ++ c))).
Proof.
  apply (validateEvent_discrete_iff Samples.pressA "button").
  - reflexivity.
  - simpl. auto.
Defined.

(** Codes of one type under another type. *)
Example axis_code_under_button :
  Validation.validateEvent Samples.button_no_code
  = Throw (mkMcpError InvalidParams "Invalid button code: leftX").
Proof. reflexivity. Qed.

Example space_under_button :
  Validation.validateEvent (Samples.mkEvent "button" "space" (JBool true))
  = Throw (mkMcpError InvalidParams "Invalid button code: space").
Proof. reflexivity. Qed.

Example button_code_under_axis :
  Validation.validateEvent (Samples.mkEvent "axis" "A" (JNum (1 # 2)))
  = Throw (mkMcpError InvalidParams "Invalid axis code: A").
Proof. reflexivity. Qed.

Example number_under_button :
  Validation.validateEvent (Samples.mkEvent "button" "A" (JNum (1 # 1)))
  = Throw (mkMcpError InvalidParams "Invalid value for button: must be boolean").
Proof. reflexivity. Qed.

(** ** Continuous events *)

(** What [validateEvent] computes once the type is axis or trigger and the
    code is a string. *)
Lemma validateEvent_slider (fields : list (string * json)) (type c : string) :
  get (JObj fields) "type" = Some (JStr type) ->
  In type ["axis"; "trigger"] ->
  get (JObj fields) "code" = Some (JStr c) ->
  Validation.validateEvent (JObj fields) =
  if negb (Validation.isValidSliderCode type c) then
    Throw (mkMcpError InvalidParams ("Invalid " ++ type ++ " code: " ++ c))
  else
    match get (JObj fields) "value" with
    | Some (JNum value) =>
        if Qltb value (-1 # 1) || Qltb (1 # 1) value then
          Throw (mkMcpError InvalidParams
                   ("Invalid value for " ++ type
                    ++ ": must be number between -1 and 1"))
        else Ok (JObj fields)
    | _ =>
        Throw (mkMcpError InvalidParams
                 ("Invalid value for " ++ type
                  ++ ": must be number between -1 and 1"))
    end.
Proof.
  intros Hty Hin Hc. unfold Validation.validateEvent. rewrite Hty, Hc.
  simpl in Hin. destruct Hin as [<-|[<-|[]]]; reflexivity.
Qed.

(** C2. For an event of type axis or trigger, [validateEvent] succeeds
    exactly when the code is in the code set of that type and the value is
    a number between -1 and 1, both ends included: the values -1 and 1 are
    accepted, and a value below -1 or above 1 is rejected, for a trigger as
    for an axis. *)
Theorem validateEvent_continuous_iff (e : json) (type : string) :
  get e "type" = Some (JStr type) ->
  In type ["axis"; "trigger"] ->
  ((exists r, Validation.validateEvent e = Ok r) <->
   (exists c v, get e "code" = Some (JStr c) /\ In c (Types.codeSet type)
                /\ get e "value" = Some (JNum v)
                /\ ((-1 # 1) <= v)%Q /\ (v <= (1 # 1))%Q))
  /\ (forall c v, get e "code" = Some (JStr c) -> In c (Types.codeSet type) ->
        get e "value" = Some (JNum v) ->
        (v == (-1 # 1))%Q \/ (v == (1 # 1))%Q ->
        Validation.validateEvent e = Ok e)
  /\ (forall v, get e "value" = Some (JNum v) ->
        (v < (-1 # 1))%Q \/ ((1 # 1) < v)%Q ->
        forall r, Validation.validateEvent e <> Ok r).
Proof.
  intros Hty Hin.
  destruct (get_type_object _ _ _ Hty) as [fields ->].
  pose proof (slider_table_codeSet type) as Htab.
  assert (Hiff :
    (exists r, Validation.validateEvent (JObj fields) = Ok r) <->
    (exists c v, get (JObj fields) "code" = Some (JStr c)
                 /\ In c (Types.codeSet type)
                 /\ get (JObj fields) "value" = Some (JNum v)
                 /\ ((-1 # 1) <= v)%Q /\ (v <= (1 # 1))%Q)).
  { split.
    - intros [r Hr].
      destruct (get (JObj fields) "code") as [[ | | |c| | ]|] eqn:Hc;
        try (unfold Validation.validateEvent in Hr; rewrite Hty, Hc in Hr;
             discriminate).
      rewrite (validateEvent_slider fields type c Hty Hin Hc) in Hr.
      destruct (Validation.isValidSliderCode type c) eqn:Hv; cbn [negb] in Hr;
        [|discriminate].
      destruct (get (JObj fields) "value") as [[ | |v| | | ]|] eqn:Hval;
        try discriminate.
      destruct (Qltb v (-1 # 1) || Qltb (1 # 1) v) eqn:Hr2; [discriminate|].
      apply in_range_iff in Hr2. exists c, v.
      repeat split; try tauto. now apply Htab.
    - intros (c & v & Hc & Hcin & Hval & Hlo & Hhi).
      rewrite (validateEvent_slider fields type c Hty Hin Hc).
      apply (Htab c Hin) in Hcin. rewrite Hcin, Hval. cbn [negb].
      assert (Hr2 : Qltb v (-1 # 1) || Qltb (1 # 1) v = false)
        by (apply in_range_iff; tauto).
      rewrite Hr2. eauto. }
  split; [exact Hiff|]. split.
  - intros c v Hc Hcin Hval Hv.
    rewrite (validateEvent_slider fields type c Hty Hin Hc).
    apply (Htab c Hin) in Hcin. rewrite Hcin, Hval. cbn [negb].
    assert (Hr2 : Qltb v (-1 # 1) || Qltb (1 # 1) v = false).
    { apply in_range_iff. destruct Hv as [Hv|Hv]; rewrite Hv; split;
        solve [apply Qle_refl | discriminate]. }
    now rewrite Hr2.
  - intros v Hval Hv r Hr.
    assert (Hex : exists r, Validation.validateEvent (JObj fields) = Ok r)
      by eauto.
    apply Hiff in Hex. destruct Hex as (c & v' & _ & _ & Hval' & Hlo & Hhi).
    rewrite Hval in Hval'. injection Hval' as <-.
    destruct Hv as [Hv|Hv]; [exact (Qlt_not_le _ _ Hv Hlo)
                            | exact (Qlt_not_le _ _ Hv Hhi)].
Qed.

Lemma validateEvent_continuous_iff_witness :
  ((exists r, Validation.validateEvent Samples.trigger_neg = Ok r) <->
   (exists c v, get Samples.trigger_neg "code" = Some (JStr c)
                /\ In c (Types.codeSet "trigger")
                /\ get Samples.trigger_neg "value" = Some (JNum v)
                /\ ((-1 # 1) <= v)%Q /\ (v <= (1 # 1))%Q))
  /\ (forall c v, get Samples.trigger_neg "code" = Some (JStr c) ->
        In c (Types.codeSet "trigger") ->
        get Samples.trigger_neg "value" = Some (JNum v) ->
        (v == (-1 # 1))%Q \/ (v == (1 # 1))%Q ->
        Validation.validateEvent Samples.trigger_neg = Ok Samples.trigger_neg)
  /\ (forall v, get Samples.trigger_neg "value" = Some (JNum v) ->
        (v < (-1 # 1))%Q \/ ((1 # 1) < v)%Q ->
        forall r, Validation.validateEvent Samples.trigger_neg <> Ok r).
Proof.
  apply (validateEvent_continuous_iff Samples.trigger_neg "trigger").
  - reflexivity.
  - simpl. auto.
Defined.

(** The ends of the interval, and just beyond them. *)
Example axis_at_one :
  let e := Samples.mkEvent "axis" "leftX" (JNum (1 # 1)) in
  Validation.validateEvent e = Ok e.
Proof. reflexivity. Qed.

Example axis_at_minus_one :
  let e := Samples.mkEvent "axis" "leftX" (JNum (-1 # 1)) in
  Validation.validateEvent e = Ok e.
Proof. reflexivity. Qed.

Example trigger_at_minus_one :
  let e := Samples.mkEvent "trigger" "rightTrigger" (JNum (-1 # 1)) in
  Validation.validateEvent e = Ok e.
Proof. reflexivity. Qed.

Example axis_above_one :
  Validation.validateEvent (Samples.mkEvent "axis" "leftX" (JNum (10001 # 10000)))
  = Throw (mkMcpError InvalidParams
             "Invalid value for axis: must be number between -1 and 1").
Proof. reflexivity. Qed.

Example trigger_below_minus_one :
  Validation.validateEvent
    (Samples.mkEvent "trigger" "leftTrigger" (JNum (-10001 # 10000)))
  = Throw (mkMcpError InvalidParams
             "Invalid value for trigger: must be number between -1 and 1").
Proof. reflexivity. Qed.

Example boolean_under_axis :
  Validation.validateEvent (Samples.mkEvent "axis" "leftX" (JBool true))
  = Throw (mkMcpError InvalidParams
             "Invalid value for axis: must be number between -1 and 1").
Proof. reflexivity. Qed.

(** ** Batches *)

Lemma validateEvent_returns_input (e r : json) :
  Validation.validateEvent e = Ok r -> r = e.
Proof.
  unfold Validation.validateEvent. intros H.
  repeat match type of H with
         | context [match ?x with _ => _ end] => destruct x; try discriminate
         end.
  all: congruence.
Qed.

Section MapThrowing.
Context {A : Type} (f : A -> result A).
Hypothesis f_returns_input : forall x y, f x = Ok y -> y = x.

Lemma map_throwing_all_ok (l : list A) :
  Forall (fun x => exists y, f x = Ok y) l -> map_throwing f l = Ok l.
Proof.
  induction 1 as [|x l [y Hy] _ IH]; simpl; [reflexivity|].
  rewrite Hy, IH. simpl. now rewrite (f_returns_input _ _ Hy).
Qed.

Lemma map_throwing_ok_inv (l out : list A) :
  map_throwing f l = Ok out ->
  out = l /\ Forall (fun x => exists y, f x = Ok y) l.
Proof.
  revert out. induction l as [|x l IH]; simpl; intros out H.
  - injection H as <-. auto.
  - destruct (f x) as [y|e] eqn:Hx; simpl in H; [|discriminate].
    destruct (map_throwing f l) as [ys|e] eqn:Hl; simpl in H; [|discriminate].
    injection H as <-. destruct (IH ys eq_refl) as [-> Hall].
    rewrite (f_returns_input _ _ Hx). split; [reflexivity|].
    constructor; eauto.
Qed.

Lemma map_throwing_some_throw (l : list A) :
  Exists (fun x => exists e, f x = Throw e) l ->
  exists e, map_throwing f l = Throw e.
Proof.
  induction l as [|x l IH]; intros H; [inversion H|]. simpl.
  destruct (f x) as [y|e] eqn:Hx; simpl; [|eauto].
  inversion H as [? ? [e He]|? ? Hl]; subst; [congruence|].
  destruct (IH Hl) as [e ->]. simpl. eauto.
Qed.
End MapThrowing.

(** C7. A batch whose events are all valid is returned by batch validation
    as it is: same events, same values, same order; validating the result
    again changes nothing. *)
Theorem validate_batch_identity (events : list json) :
  Forall (fun e => exists r, Validation.validateEvent e = Ok r) events ->
  map_throwing Validation.validateEvent events = Ok events
  /\ (validated <- map_throwing Validation.validateEvent events ;;
      map_throwing Validation.validateEvent validated) = Ok events.
Proof.
  intros Hall.
  pose proof (map_throwing_all_ok _ validateEvent_returns_input _ Hall) as H.
  split; [exact H|]. rewrite H. simpl. exact H.
Qed.

Lemma validate_batch_identity_witness :
  map_throwing Validation.validateEvent [Samples.pressA; Samples.leftX_half]
  = Ok [Samples.pressA; Samples.leftX_half]
  /\ (validated <- map_throwing Validation.validateEvent
                     [Samples.pressA; Samples.leftX_half] ;;
      map_throwing Validation.validateEvent validated)
     = Ok [Samples.pressA; Samples.leftX_half].
Proof.
  apply (validate_batch_identity [Samples.pressA; Samples.leftX_half]).
  repeat constructor; eexists; reflexivity.
Defined.

(** ** The tool handler *)

Lemma events_argument_array (a : list (string * json)) (events : list json) :
  assoc "events" a = Some (JArr events) ->
  GamepadServer.events_argument (Some a) = Some events.
Proof.
  intros H. unfold GamepadServer.events_argument, has_key. now rewrite H.
Qed.

(** What both handlers do with a batch that [validateEvent] rejects: they
    throw before anything is stored or sent. *)
Lemma handleCallTool_rejects_invalid
      (a : list (string * json)) (events : list json) (s : GamepadServer.server) :
  assoc "events" a = Some (JArr events) ->
  Exists (fun e => exists err, Validation.validateEvent e = Throw err) events ->
  exists err,
    GamepadServer.handleCallTool
      (GamepadServer.mkRequest "send_gamepad_event" (Some a)) s = (Throw err, s)
    /\ GamepadServerRecheck.handleCallTool
         (GamepadServer.mkRequest "send_gamepad_event" (Some a)) s = (Throw err, s).
Proof.
  intros Ha Hex.
  destruct (map_throwing_some_throw _ _ Hex) as [err Herr].
  exists err.
  unfold GamepadServer.handleCallTool, GamepadServerRecheck.handleCallTool.
  cbn [GamepadServer.name GamepadServer.arguments String.eqb Ascii.eqb Bool.eqb].
  rewrite (events_argument_array _ _ Ha).
  unfold GamepadServer.bindM, GamepadServer.lift. rewrite Herr. auto.
Qed.

(** What the handler does with a batch that [validateEvent] accepts. *)
Lemma handleCallTool_accepts_valid
      (a : list (string * json)) (events : list json) (s : GamepadServer.server) :
  assoc "events" a = Some (JArr events) ->
  Forall (fun e => exists r, Validation.validateEvent e = Ok r) events ->
  GamepadServer.handleCallTool
    (GamepadServer.mkRequest "send_gamepad_event" (Some a)) s
  = (Ok (Samples.accepted (length events)),
     GamepadServer.mkServer events
       (WebSocketHandler.send (JArr events)
          (WebSocketHandler.log
             (WebSocketHandler.ReceivedMcpEvent (JObj [("events", JArr events)]))
             (GamepadServer.wsHandler s)))).
Proof.
  intros Ha Hall.
  pose proof (map_throwing_all_ok _ validateEvent_returns_input _ Hall) as H.
  unfold GamepadServer.handleCallTool.
  cbn [GamepadServer.name GamepadServer.arguments String.eqb Ascii.eqb Bool.eqb].
  rewrite (events_argument_array _ _ Ha).
  unfold GamepadServer.bindM, GamepadServer.lift. rewrite H. reflexivity.
Qed.

Lemma send_not_connected (ev : json) (s : WebSocketHandler.state) :
  WebSocketHandler.connectionState s <> WebSocketHandler.Connected ->
  WebSocketHandler.sockets (WebSocketHandler.send ev s) = WebSocketHandler.sockets s
  /\ WebSocketHandler.ws (WebSocketHandler.send ev s) = WebSocketHandler.ws s
  /\ WebSocketHandler.wsReconnectInterval (WebSocketHandler.send ev s)
     = WebSocketHandler.wsReconnectInterval s
  /\ WebSocketHandler.intervals (WebSocketHandler.send ev s)
     = WebSocketHandler.intervals s
  /\ exists ds, WebSocketHandler.console (WebSocketHandler.send ev s)
                = (WebSocketHandler.console s ++ ds)%list.
Proof.
  unfold WebSocketHandler.connectionState, WebSocketHandler.send. intros H.
  destruct (WebSocketHandler.ws s) as [id|] eqn:Hws.
  - destruct (WebSocketHandler.readyStateOf s id) as [[]|] eqn:Hrs;
      try congruence; simpl; rewrite ?Hws; repeat split; eauto.
    exists []. now rewrite app_nil_r.
  - simpl. rewrite Hws. repeat split; eauto.
Qed.

(** C9. A wholly valid batch submitted while the manager is not connected
    is answered with success, [eventsReceived] being the number of events;
    nothing is thrown, no frame is handed to any socket, and the handler
    only gains console entries. *)
Theorem submit_while_disconnected
      (a : list (string * json)) (events : list json) (s : GamepadServer.server) :
  assoc "events" a = Some (JArr events) ->
  Forall (fun e => exists r, Validation.validateEvent e = Ok r) events ->
  WebSocketHandler.connectionState (GamepadServer.wsHandler s)
  <> WebSocketHandler.Connected ->
  let out := GamepadServer.handleCallTool
               (GamepadServer.mkRequest "send_gamepad_event" (Some a)) s in
  fst out = Ok (Samples.accepted (length events))
  /\ GamepadServer.lastEvents (snd out) = events
  /\ WebSocketHandler.sockets (GamepadServer.wsHandler (snd out))
     = WebSocketHandler.sockets (GamepadServer.wsHandler s)
  /\ WebSocketHandler.framesSent (GamepadServer.wsHandler (snd out))
     = WebSocketHandler.framesSent (GamepadServer.wsHandler s)
  /\ exists ds, WebSocketHandler.console (GamepadServer.wsHandler (snd out))
                = (WebSocketHandler.console (GamepadServer.wsHandler s) ++ ds)%list.
Proof.
  intros Ha Hall Hnc out. subst out.
  rewrite (handleCallTool_accepts_valid a events s Ha Hall).
  cbn [fst snd GamepadServer.lastEvents GamepadServer.wsHandler].
  set (h := WebSocketHandler.log _ (GamepadServer.wsHandler s)).
  assert (Hh : WebSocketHandler.connectionState h <> WebSocketHandler.Connected)
    by exact Hnc.
  destruct (send_not_connected (JArr events) h Hh)
    as (Hs & _ & _ & _ & ds & Hds).
  split; [reflexivity|]. split; [reflexivity|].
  split; [exact Hs|]. split.
  - unfold WebSocketHandler.framesSent. now rewrite Hs.
  - rewrite Hds. subst h. cbn [WebSocketHandler.console WebSocketHandler.log].
    rewrite <- app_assoc. eauto.
Qed.

Lemma submit_while_disconnected_witness :
  let out := GamepadServer.handleCallTool
               (Samples.call (JArr [Samples.pressA])) Samples.connecting in
  fst out = Ok (Samples.accepted 1)
  /\ GamepadServer.lastEvents (snd out) = [Samples.pressA]
  /\ WebSocketHandler.sockets (GamepadServer.wsHandler (snd out))
     = WebSocketHandler.sockets (GamepadServer.wsHandler Samples.connecting)
  /\ WebSocketHandler.framesSent (GamepadServer.wsHandler (snd out))
     = WebSocketHandler.framesSent (GamepadServer.wsHandler Samples.connecting)
  /\ exists ds, WebSocketHandler.console (GamepadServer.wsHandler (snd out))
                = (WebSocketHandler.console
                     (GamepadServer.wsHandler Samples.connecting) ++ ds)%list.
Proof.
  apply (submit_while_disconnected
           [("events", JArr [Samples.pressA])] [Samples.pressA]
           Samples.connecting).
  - reflexivity.
  - repeat constructor; eexists; reflexivity.
  - vm_compute. discriminate.
Defined.

(** C3 as written fails on an empty array: the guard of the handler tests
    only that [events] is there and is an array, and an empty batch is
    answered with success and a count of 0. *)
Lemma empty_batch_accepted :
  fst (GamepadServer.handleCallTool (Samples.call (JArr [])) Samples.connecting)
  = Ok (Samples.accepted 0)
  /\ fst (GamepadServerRecheck.handleCallTool (Samples.call (JArr []))
            Samples.connecting)
     = Ok (Samples.accepted 0).
Proof. split; reflexivity. Qed.

(** C3, amended. A call whose arguments are absent, or have no [events],
    or whose [events] is not an array, is rejected with InvalidParams and
    leaves the server as it was; a call whose [events] is the empty array
    is accepted: the answer is success with [eventsReceived] 0 and
    [lastEvents] becomes empty. *)
Theorem envelope_check
      (args : option (list (string * json))) (s : GamepadServer.server) :
  ((args = None
    \/ exists a, args = Some a
                 /\ (assoc "events" a = None
                     \/ exists v, assoc "events" a = Some v
                                  /\ forall l, v <> JArr l)) ->
   GamepadServer.handleCallTool
     (GamepadServer.mkRequest "send_gamepad_event" args) s
   = (Throw Samples.bad_envelope, s)
   /\ GamepadServerRecheck.handleCallTool
        (GamepadServer.mkRequest "send_gamepad_event" args) s
      = (Throw Samples.bad_envelope, s))
  /\ (forall a, args = Some a -> assoc "events" a = Some (JArr []) ->
      let out := GamepadServer.handleCallTool
                   (GamepadServer.mkRequest "send_gamepad_event" args) s in
      let out' := GamepadServerRecheck.handleCallTool
                    (GamepadServer.mkRequest "send_gamepad_event" args) s in
      fst out = Ok (Samples.accepted 0)
      /\ GamepadServer.lastEvents (snd out) = []
      /\ fst out' = Ok (Samples.accepted 0)
      /\ GamepadServer.lastEvents (snd out') = []).
Proof.
  split.
  - intros H.
    assert (Hnone : GamepadServer.events_argument args = None).
    { destruct H as [->|(a & -> & [Ha|(v & Ha & Hv)])]; [reflexivity| |];
        unfold GamepadServer.events_argument, has_key; rewrite Ha;
        [reflexivity|].
      cbn [negb]. destruct v; try reflexivity. now destruct (Hv items). }
    unfold GamepadServer.handleCallTool, GamepadServerRecheck.handleCallTool.
    cbn [GamepadServer.name GamepadServer.arguments String.eqb Ascii.eqb Bool.eqb].
    rewrite Hnone. split; reflexivity.
  - intros a -> Ha out out'. subst out out'.
    unfold GamepadServer.handleCallTool, GamepadServerRecheck.handleCallTool.
    cbn [GamepadServer.name GamepadServer.arguments String.eqb Ascii.eqb Bool.eqb].
    rewrite (events_argument_array _ _ Ha). repeat split.
Qed.

Lemma envelope_check_witness :
  GamepadServer.handleCallTool
    (GamepadServer.mkRequest "send_gamepad_event" (Some [("events", JStr "A")]))
    Samples.connected
  = (Throw Samples.bad_envelope, Samples.connected)
  /\ GamepadServer.handleCallTool
       (GamepadServer.mkRequest "send_gamepad_event" None) Samples.connected
     = (Throw Samples.bad_envelope, Samples.connected).
Proof.
  split.
  - apply (envelope_check (Some [("events", JStr "A")]) Samples.connected).
    right. exists [("events", JStr "A")]. split; [reflexivity|].
    right. exists (JStr "A"). split; [reflexivity|]. discriminate.
  - apply (envelope_check None Samples.connected). left. reflexivity.
Defined.

(** C1 fails on the revision of [index.ts] that checks values after it has
    sent them.  A trigger value of -1/2 passes [validateEvent]; the handler
    stores the batch, hands it to the open socket, and only then throws. *)
Theorem recheck_rejects_after_sending :
  let batch := [Samples.pressA; Samples.trigger_neg] in
  let out := GamepadServerRecheck.handleCallTool
               (Samples.call (JArr batch)) Samples.connected in
  fst out = Throw (mkMcpError InvalidParams
                     "Trigger values must be numbers between 0 and 1")
  /\ GamepadServer.lastEvents Samples.connected = []
  /\ GamepadServer.lastEvents (snd out) = batch
  /\ WebSocketHandler.framesSent (GamepadServer.wsHandler Samples.connected) = []
  /\ WebSocketHandler.framesSent (GamepadServer.wsHandler (snd out))
     = [JObj [("events", JArr batch)]].
Proof. vm_compute. repeat split. Qed.

(** ** The connection manager *)

Section Manager.
Import WebSocketHandler.

Ltac unfold_methods :=
  unfold reconnectTick, connect, handleOpen, handleClose, handleError,
    handleMessage, send, socket_send, setupReconnection, setInterval,
    clearInterval, newWebSocket, set_readyState, set_ws,
    set_wsReconnectInterval, set_sockets, log in *.

Ltac split_matches :=
  repeat match goal with
         | |- context [match ?x with _ => _ end] => destruct x eqn:?
         | |- context [if ?x then _ else _] => destruct x eqn:?
         end.

Lemma nth_error_update_same {A : Type} (f : A -> A) (l : list A) (i : nat) (x : A) :
  nth_error l i = Some x -> nth_error (update i f l) i = Some (f x).
Proof.
  revert i. induction l as [|y l IH]; intros [|i] H; simpl in *;
    try discriminate; [congruence | auto].
Qed.

Lemma nth_error_update_other {A : Type} (f : A -> A) (l : list A) (i j : nat) :
  i <> j -> nth_error (update i f l) j = nth_error l j.
Proof.
  revert i j. induction l as [|y l IH]; intros [|i] [|j] H; simpl;
    try reflexivity; [congruence | apply IH; congruence].
Qed.

Lemma frames_update_append (l : list WebSocket) (i : nat) (w : WebSocket) (m : json) :
  nth_error l i = Some w ->
  length (flat_map frames
            (update i (fun w => mkWebSocket (readyState w) (frames w ++ [m])) l))
  = S (length (flat_map frames l)).
Proof.
  revert i. induction l as [|y l IH]; intros [|i] H; simpl in *;
    try discriminate.
  - rewrite !length_app. simpl. lia.
  - rewrite !length_app, (IH i H). lia.
Qed.

(** *** Sending *)

Lemma connected_inv (s : state) :
  connectionState s = Connected ->
  exists id w, ws s = Some id /\ nth_error (sockets s) id = Some w
               /\ readyState w = OPEN.
Proof.
  unfold connectionState, readyStateOf. intros H.
  destruct (ws s) as [id|]; [|discriminate].
  destruct (nth_error (sockets s) id) as [w|] eqn:Hw; simpl in H;
    [|discriminate].
  exists id, w. destruct (readyState w); try discriminate. auto.
Qed.

(** C10. [send] takes one event or an array of events.  When the manager
    is connected it hands exactly one frame to the socket it holds, and to
    no other: the frame is [{ events: [...] }], holding the array as it
    is, in its order, or the single event wrapped in an array of one. *)
Theorem send_connected_one_frame (ev : json) (s : state) (id : nat) :
  connectionState s = Connected ->
  ws s = Some id ->
  exists w frame,
    nth_error (sockets s) id = Some w
    /\ nth_error (sockets (send ev s)) id
       = Some (mkWebSocket OPEN (frames w ++ [frame]))
    /\ (forall j, j <> id ->
          nth_error (sockets (send ev s)) j = nth_error (sockets s) j)
    /\ length (framesSent (send ev s)) = S (length (framesSent s))
    /\ (forall items, ev = JArr items ->
          frame = JObj [("events", JArr items)])
    /\ ((forall items, ev <> JArr items) ->
          frame = JObj [("events", JArr [ev])]).
Proof.
  intros Hc Hid.
  destruct (connected_inv s Hc) as (id' & w & Hid' & Hw & Hopen).
  assert (id' = id) by congruence. subst id'.
  set (events := match ev with JArr items => items | _ => [ev] end).
  exists w, (JObj [("events", JArr events)]).
  assert (Hsend :
    sockets (send ev s)
    = update id (fun w => mkWebSocket (readyState w)
                            (frames w ++ [JObj [("events", JArr events)]]))
             (sockets s)).
  { unfold send, socket_send, readyStateOf. rewrite Hid.
    cbn [log sockets ws]. rewrite Hw. cbn [option_map]. rewrite Hopen.
    reflexivity. }
  split; [exact Hw|]. split.
  { rewrite Hsend, (nth_error_update_same _ _ _ _ Hw). now rewrite Hopen. }
  split.
  { intros j Hj. rewrite Hsend. apply nth_error_update_other. congruence. }
  split.
  { unfold framesSent. rewrite Hsend. exact (frames_update_append _ _ _ _ Hw). }
  split.
  - intros items ->. reflexivity.
  - intros Hn. subst events. destruct ev; try reflexivity.
    now destruct (Hn items).
Qed.

Lemma send_connected_one_frame_witness :
  exists w frame,
    nth_error (sockets (GamepadServer.wsHandler Samples.connected)) 0 = Some w
    /\ nth_error (sockets (send Samples.pressA
                             (GamepadServer.wsHandler Samples.connected))) 0
       = Some (mkWebSocket OPEN (frames w ++ [frame]))
    /\ (forall j, j <> 0 ->
          nth_error (sockets (send Samples.pressA
                                (GamepadServer.wsHandler Samples.connected))) j
          = nth_error (sockets (GamepadServer.wsHandler Samples.connected)) j)
    /\ length (framesSent (send Samples.pressA
                             (GamepadServer.wsHandler Samples.connected)))
       = S (length (framesSent (GamepadServer.wsHandler Samples.connected)))
    /\ (forall items, Samples.pressA = JArr items ->
          frame = JObj [("events", JArr items)])
    /\ ((forall items, Samples.pressA <> JArr items) ->
          frame = JObj [("events", JArr [Samples.pressA])]).
Proof.
  apply (send_connected_one_frame Samples.pressA
           (GamepadServer.wsHandler Samples.connected) 0); reflexivity.
Defined.

(** *** The reconnection timer *)

Lemma setupReconnection_invariant (s : state) :
  timer_invariant s -> timer_invariant (setupReconnection s).
Proof.
  unfold timer_invariant, setupReconnection, setInterval,
    set_wsReconnectInterval.
  destruct (wsReconnectInterval s) eqn:Ht; simpl; intros H;
    rewrite ?Ht; congruence.
Qed.

Lemma connect_invariant (throws : bool) (s : state) :
  timer_invariant s -> timer_invariant (connect throws s).
Proof.
  intros H. unfold connect.
  destruct (match ws s with Some _ => _ | None => _ end).
  - exact H.
  - destruct throws.
    + apply setupReconnection_invariant. exact H.
    + exact H.
Qed.

Lemma handleOpen_clears (s : state) :
  timer_invariant s ->
  wsReconnectInterval (handleOpen s) = None /\ intervals (handleOpen s) = [].
Proof.
  unfold timer_invariant, handleOpen, clearInterval, set_wsReconnectInterval,
    log. simpl.
  destruct (wsReconnectInterval s) as [t|] eqn:Ht; simpl; intros H;
    rewrite ?Ht; rewrite H; simpl; rewrite ?Nat.eqb_refl; auto.
Qed.

Lemma step_timer_invariant (s s' : state) (e : event) :
  timer_invariant s -> step s e = Some s' -> timer_invariant s'.
Proof.
  intros H Hs. destruct e; simpl in Hs.
  - injection Hs as <-. now apply connect_invariant.
  - destruct (intervals s) eqn:Hi; [discriminate|]. injection Hs as <-.
    unfold reconnectTick. apply connect_invariant. exact H.
  - destruct (readyStateOf s id) as [[]|]; try discriminate.
    injection Hs as <-.
    destruct (handleOpen_clears (set_readyState id OPEN s) H) as [H1 H2].
    unfold timer_invariant. now rewrite H1, H2.
  - destruct (readyStateOf s id) as [[]|]; try discriminate.
    injection Hs as <-. destruct parsed; exact H.
  - destruct (readyStateOf s id) as [[]|]; try discriminate;
      injection Hs as <-; unfold handleClose;
      apply setupReconnection_invariant; exact H.
  - destruct (readyStateOf s id) as [[]|]; try discriminate;
      injection Hs as <-; unfold handleError;
      destruct (str_includes _ _); exact H.
  - injection Hs as <-. unfold send, socket_send.
    destruct (ws s) as [id|]; [|exact H].
    destruct (readyStateOf s id) as [[]|] eqn:Hrs; try exact H.
    assert (Hrs' : readyStateOf
                     (log (Sending (JObj [("events",
                        JArr match ev with JArr items => items | _ => [ev] end)]))
                          s) id = Some OPEN) by exact Hrs.
    rewrite Hrs'. exact H.
Qed.

Lemma run_timer_invariant (tr : list event) (s s' : state) :
  timer_invariant s -> run s tr = Some s' -> timer_invariant s'.
Proof.
  revert s. induction tr as [|e tr IH]; simpl; intros s H Hr.
  - now injection Hr as <-.
  - destruct (step s e) as [s1|] eqn:Hs; [|discriminate].
    exact (IH s1 (step_timer_invariant _ _ _ H Hs) Hr).
Qed.

Lemma setupReconnection_keeps (s : state) (t : nat) :
  In t (intervals s) -> In t (intervals (setupReconnection s)).
Proof.
  unfold setupReconnection, setInterval, set_wsReconnectInterval.
  destruct (wsReconnectInterval s); simpl; auto.
Qed.

Lemma connect_keeps (throws : bool) (s : state) (t : nat) :
  In t (intervals s) -> In t (intervals (connect throws s)).
Proof.
  intros H. unfold connect.
  destruct (match ws s with Some _ => _ | None => _ end); [exact H|].
  destruct throws; [apply setupReconnection_keeps|]; exact H.
Qed.

Lemma send_keeps_timers (ev : json) (s : state) :
  intervals (send ev s) = intervals s
  /\ wsReconnectInterval (send ev s) = wsReconnectInterval s.
Proof.
  unfold send, socket_send.
  destruct (ws s) as [id|]; [|auto].
  destruct (readyStateOf s id) as [[]|] eqn:Hrs; auto.
  assert (Hrs' : readyStateOf
                   (log (Sending (JObj [("events",
                      JArr match ev with JArr items => items | _ => [ev] end)]))
                        s) id = Some OPEN) by exact Hrs.
  rewrite Hrs'. auto.
Qed.

(** Every step but [open] keeps an armed timer armed. *)
Lemma step_keeps_timer (s s' : state) (e : event) :
  step s e = Some s' -> is_open e = false ->
  forall t, In t (intervals s) -> In t (intervals s').
Proof.
  intros Hs Ho t Ht. destruct e; simpl in Hs; try discriminate Ho.
  - injection Hs as <-. now apply connect_keeps.
  - destruct (intervals s) eqn:Hi; [discriminate|]. injection Hs as <-.
    unfold reconnectTick. apply connect_keeps. simpl. now rewrite Hi.
  - destruct (readyStateOf s id) as [[]|]; try discriminate.
    injection Hs as <-. destruct parsed; exact Ht.
  - destruct (readyStateOf s id) as [[]|]; try discriminate;
      injection Hs as <-; unfold handleClose;
      apply setupReconnection_keeps; exact Ht.
  - destruct (readyStateOf s id) as [[]|]; try discriminate;
      injection Hs as <-; unfold handleError;
      destruct (str_includes _ _); exact Ht.
  - injection Hs as <-. now rewrite (proj1 (send_keeps_timers ev s)).
Qed.

(** X24. In every state the manager can reach, at most one reconnection
    timer is armed; asking for reconnection while one is pending changes
    nothing; a timer is cancelled by the step in which a socket reports
    [open], and by no other step. *)
Theorem one_reconnection_timer (url : string) (tr : list event) (s : state) :
  run (constructor url) tr = Some s ->
  (length (intervals s) <= 1)%nat
  /\ (wsReconnectInterval s <> None -> setupReconnection s = s)
  /\ (forall e s', step s e = Some s' ->
        (is_open e = true ->
         wsReconnectInterval s' = None /\ intervals s' = [])
        /\ (is_open e = false ->
            forall t, In t (intervals s) -> In t (intervals s'))).
Proof.
  intros Hr.
  assert (Hinv : timer_invariant s).
  { apply (run_timer_invariant tr (constructor url)); [reflexivity|exact Hr]. }
  split.
  { unfold timer_invariant in Hinv. rewrite Hinv.
    destruct (wsReconnectInterval s); simpl; lia. }
  split.
  { unfold setupReconnection. destruct (wsReconnectInterval s); congruence. }
  intros e s' Hs. split.
  - intros Ho. destruct e; try discriminate Ho. simpl in Hs.
    destruct (readyStateOf s id) as [[]|]; try discriminate.
    injection Hs as <-.
    exact (handleOpen_clears (set_readyState id OPEN s) Hinv).
  - intros Ho. exact (step_keeps_timer s s' e Hs Ho).
Qed.

Lemma one_reconnection_timer_witness :
  exists s,
    run (constructor "ws://127.0.0.1:13123") Samples.stalled_reconnect = Some s
    /\ (length (intervals s) <= 1)%nat
    /\ (wsReconnectInterval s <> None -> setupReconnection s = s).
Proof.
  eexists. split; [vm_compute; reflexivity|].
  split;
    apply (one_reconnection_timer "ws://127.0.0.1:13123"
             Samples.stalled_reconnect); vm_compute; reflexivity.
Defined.

(** *** Errors and closes *)

Lemma readyStateOf_set (s : state) (id : nat) (rs rs' : ReadyState) :
  readyStateOf s id = Some rs ->
  readyStateOf (set_readyState id rs' s) id = Some rs'.
Proof.
  unfold readyStateOf, set_readyState, set_sockets. cbn [sockets].
  destruct (nth_error (sockets s) id) as [w|] eqn:Hw; [|discriminate].
  intros _. now rewrite (nth_error_update_same _ _ _ _ Hw).
Qed.

Lemma connecting_inv (s : state) (id : nat) :
  connectionState s = Connecting -> ws s = Some id ->
  readyStateOf s id = Some CONNECTING.
Proof.
  unfold connectionState. intros H Hid. rewrite Hid in H.
  destruct (readyStateOf s id) as [[]|]; congruence.
Qed.

Lemma handleClose_fields (code : nat) (reason : string) (s : state) :
  ws (handleClose code reason s) = None
  /\ exists t, wsReconnectInterval (handleClose code reason s) = Some t.
Proof.
  unfold handleClose, setupReconnection.
  set (s' := set_ws None (log (ClosedWith code reason) s)).
  destruct (wsReconnectInterval s') as [t|] eqn:E.
  - split; [reflexivity|]. eauto.
  - split; [reflexivity|]. simpl. eauto.
Qed.

(** C6 as written fails: the error listener only logs.  After the first
    connection attempt is refused, or its handshake times out, the error
    signal leaves the handler with its socket handle and without any
    timer. *)
Lemma error_does_not_schedule :
  let s0 := connect false (constructor "ws://127.0.0.1:13123") in
  connectionState s0 = Connecting
  /\ option_map (fun s1 => (ws s1, wsReconnectInterval s1, intervals s1))
       (step s0 (SockError 0 "connect ECONNREFUSED 127.0.0.1:13123"))
     = Some (Some 0%nat, None, [])
  /\ option_map (fun s1 => (ws s1, wsReconnectInterval s1, intervals s1))
       (step s0 (SockError 0 "Opening handshake has timed out"))
     = Some (Some 0%nat, None, []).
Proof. vm_compute. repeat split. Qed.

(** C6, amended. While the manager is connecting, an error signal of a
    socket, the held one or any other that is not closed, is logged and
    nothing more: the socket handle, the timer field, the armed timers and
    the timer counter stay as they were, the console alone grows, and the
    sockets are as the library left them.  The close signal of that socket
    that follows sets the handle to null, so the manager is disconnected,
    and arms a new reconnection timer when none is pending; a pending
    timer is kept and no second one is armed. *)
Theorem error_logs_then_close_schedules
      (s : state) (id : nat) (message reason : string) (code : nat) :
  timer_invariant s ->
  connectionState s = Connecting ->
  (ws s = Some id \/ exists rs, readyStateOf s id = Some rs /\ rs <> CLOSED) ->
  exists s1,
    step s (SockError id message) = Some s1
    /\ ws s1 = ws s
    /\ wsReconnectInterval s1 = wsReconnectInterval s
    /\ intervals s1 = intervals s
    /\ nextInterval s1 = nextInterval s
    /\ sockets s1 = sockets (set_readyState id CLOSING s)
    /\ (exists ds, console s1 = (console s ++ ds)%list)
    /\ exists s2,
         step s1 (SockClose id code reason) = Some s2
         /\ ws s2 = None
         /\ connectionState s2 = Disconnected
         /\ match wsReconnectInterval s with
            | Some t =>
                wsReconnectInterval s2 = Some t /\ intervals s2 = intervals s
            | None =>
                wsReconnectInterval s2 = Some (nextInterval s)
                /\ intervals s2 = [nextInterval s]
            end.
Proof.
  intros Hinv Hc Hsock.
  assert (Hrs : exists rs, readyStateOf s id = Some rs /\ rs <> CLOSED).
  { destruct Hsock as [Hid|H]; [|exact H].
    exists CONNECTING. split; [now apply connecting_inv | discriminate]. }
  destruct Hrs as (rs & Hrs & Hne).
  set (s0 := set_readyState id CLOSING s).
  assert (Hrs0 : readyStateOf s0 id = Some CLOSING)
    by exact (readyStateOf_set s id rs CLOSING Hrs).
  assert (Hstep1 : step s (SockError id message) = Some (handleError message s0)).
  { simpl. rewrite Hrs. destruct rs; try reflexivity. now destruct Hne. }
  assert (Hshape : exists ds,
    handleError message s0
    = mkState (ws s) (wsReconnectInterval s) (WS_URL s) (sockets s0)
              (intervals s) (nextInterval s) (console s ++ ds)).
  { unfold handleError. destruct (str_includes "ECONNREFUSED" message).
    - exists [SocketError message; ConnectionRefused].
      unfold log. cbn. now rewrite <- app_assoc.
    - exists [SocketError message]. reflexivity. }
  destruct Hshape as [ds Hshape].
  exists (handleError message s0). rewrite Hshape.
  set (s1 := mkState (ws s) (wsReconnectInterval s) (WS_URL s) (sockets s0)
                     (intervals s) (nextInterval s) (console s ++ ds)).
  split; [rewrite Hstep1, Hshape; reflexivity|].
  do 5 (split; [reflexivity|]).
  split; [exists ds; reflexivity|].
  assert (Hrs1 : readyStateOf s1 id = Some CLOSING) by exact Hrs0.
  exists (handleClose code reason (set_readyState id CLOSED s1)).
  split; [simpl; now rewrite Hrs1|].
  assert (Hws2 : ws (handleClose code reason (set_readyState id CLOSED s1)) = None)
    by apply handleClose_fields.
  split; [exact Hws2|].
  split; [unfold connectionState; now rewrite Hws2|].
  unfold handleClose, setupReconnection, setInterval. cbn.
  unfold timer_invariant in Hinv.
  destruct (wsReconnectInterval s) as [t|]; cbn.
  - auto.
  - rewrite Hinv. auto.
Qed.

Lemma error_logs_then_close_schedules_witness :
  let s := connect false (constructor "ws://127.0.0.1:13123") in
  exists s1,
    step s (SockError 0 "connect ECONNREFUSED 127.0.0.1:13123") = Some s1
    /\ ws s1 = ws s
    /\ wsReconnectInterval s1 = wsReconnectInterval s
    /\ intervals s1 = intervals s
    /\ nextInterval s1 = nextInterval s
    /\ sockets s1 = sockets (set_readyState 0 CLOSING s)
    /\ (exists ds, console s1 = (console s ++ ds)%list)
    /\ exists s2,
         step s1 (SockClose 0 1006 "") = Some s2
         /\ ws s2 = None
         /\ connectionState s2 = Disconnected
         /\ match wsReconnectInterval s with
            | Some t =>
                wsReconnectInterval s2 = Some t /\ intervals s2 = intervals s
            | None =>
                wsReconnectInterval s2 = Some (nextInterval s)
                /\ intervals s2 = [nextInterval s]
            end.
Proof.
  apply (error_logs_then_close_schedules
           (connect false (constructor "ws://127.0.0.1:13123")) 0
           "connect ECONNREFUSED 127.0.0.1:13123" "" 1006);
    [reflexivity | reflexivity | left; reflexivity].
Defined.

(** *** One socket at a time *)

(** [connect()] on a connected manager constructs nothing. *)
Lemma connect_when_connected (throws : bool) (s : state) :
  connectionState s = Connected ->
  sockets (connect throws s) = sockets s /\ ws (connect throws s) = ws s.
Proof.
  unfold connectionState, connect. intros H.
  destruct (ws s) as [id|] eqn:Hws; [|discriminate].
  destruct (readyStateOf s id) as [[]|]; try discriminate.
  split; [reflexivity | exact Hws].
Qed.

(** [connect()] on a manager whose attempt is still pending constructs
    one more socket and closes none. *)
Lemma connect_while_connecting (s : state) :
  connectionState s = Connecting ->
  liveSockets (connect false s) = S (liveSockets s)
  /\ ws (connect false s) = Some (length (sockets s)).
Proof.
  unfold connectionState, connect, liveSockets. intros H.
  destruct (ws s) as [id|]; [|discriminate].
  destruct (readyStateOf s id) as [[]|]; try discriminate.
  cbn. rewrite filter_app, length_app. cbn. split; [lia|reflexivity].
Qed.

(** C5 fails on the code: [connect()] returns early only when the socket
    it holds is open.  When the first attempt has been refused and the
    timer ticks twice while the second attempt is still connecting, the
    second tick constructs a third socket and the second one stays
    alive. *)
Theorem second_socket_while_connecting :
  option_map (fun s => (connectionState s, liveSockets s))
    (run (constructor "ws://127.0.0.1:13123")
         (firstn 4 Samples.stalled_reconnect))
  = Some (Connecting, 1%nat)
  /\ option_map (fun s => (map readyState (sockets s), ws s, liveSockets s))
       (run (constructor "ws://127.0.0.1:13123") Samples.stalled_reconnect)
     = Some ([CLOSED; CONNECTING; CONNECTING], Some 2%nat, 2%nat).
Proof. vm_compute. split; reflexivity. Qed.

End Manager.

(** * Further properties of the code *)

(** ** [validateEvent]: outcomes and the order of its checks *)

(** X1. Whatever value it is given, [validateEvent] either returns that
    very value or throws an error whose code is InvalidParams. *)
Theorem validateEvent_outcome (e : json) :
  Validation.validateEvent e = Ok e
  \/ exists msg, Validation.validateEvent e = Throw (mkMcpError InvalidParams msg).
Proof.
  unfold Validation.validateEvent.
  repeat match goal with
         | |- context [match ?x with _ => _ end] => destruct x
         end; eauto.
Qed.

Lemma includes_In (l : list string) (s : string) :
  includes l s = true <-> In s l.
Proof.
  unfold includes. rewrite existsb_exists. split.
  - intros (x & Hx & Heq). apply String.eqb_eq in Heq. now subst.
  - intros H. exists s. split; [exact H | apply String.eqb_refl].
Qed.

Lemma includes_false (l : list string) (s : string) :
  ~ In s l -> includes l s = false.
Proof.
  intros H. destruct (includes l s) eqn:E; [|reflexivity].
  apply includes_In in E. contradiction.
Qed.

Lemma discrete_or_continuous (t : string) :
  In t Types.EventType ->
  (In t ["button"; "mouseButton"; "keyboard"]
   /\ includes ["button"; "mouseButton"; "keyboard"] t = true)
  \/ (In t ["axis"; "trigger"]
      /\ includes ["button"; "mouseButton"; "keyboard"] t = false
      /\ includes ["axis"; "trigger"] t = true).
Proof.
  simpl. intros [<-|[<-|[<-|[<-|[<-|[]]]]]]; simpl; auto 10.
Qed.

Lemma unknown_type_includes (t : string) :
  ~ In t Types.EventType ->
  includes ["button"; "mouseButton"; "keyboard"] t = false
  /\ includes ["axis"; "trigger"] t = false.
Proof.
  intros H. split; apply includes_false; intros Hin; apply H;
    simpl in *; intuition.
Qed.

(** X2. The checks of [validateEvent] run in a fixed order, and the first
    one that fails names the error.  For an event whose type and code are
    strings: an unknown type is reported whatever the code and the value; a
    code outside the set of the type is reported whatever the value; only
    then is the value looked at, and a wrong value is reported by type. *)
Theorem validateEvent_check_order (e : json) (t c : string) :
  get e "type" = Some (JStr t) ->
  get e "code" = Some (JStr c) ->
  (~ In t Types.EventType ->
   Validation.validateEvent e
   = Throw (mkMcpError InvalidParams ("Invalid event type: " ++ t)))
  /\ (In t Types.EventType -> ~ In c (Types.codeSet t) ->
      Validation.validateEvent e
      = Throw (mkMcpError InvalidParams ("Invalid " ++ t ++ " code: " ++ c)))
  /\ (In t ["button"; "mouseButton"; "keyboard"] -> In c (Types.codeSet t) ->
      (forall b, get e "value" <> Some (JBool b)) ->
      Validation.validateEvent e
      = Throw (mkMcpError InvalidParams
                 ("Invalid value for " ++ t ++ ": must be boolean")))
  /\ (In t ["axis"; "trigger"] -> In c (Types.codeSet t) ->
      (forall v, get e "value" = Some (JNum v) ->
                 (v < (-1 # 1))%Q \/ ((1 # 1) < v)%Q) ->
      Validation.validateEvent e
      = Throw (mkMcpError InvalidParams
                 ("Invalid value for " ++ t
                  ++ ": must be number between -1 and 1"))).
Proof.
  intros Hty Hc.
  destruct (get_type_object _ _ _ Hty) as [fields ->].
  split; [|split; [|split]].
  - intros Hn. destruct (unknown_type_includes t Hn) as [H1 H2].
    unfold Validation.validateEvent. now rewrite Hty, Hc, H1, H2.
  - intros Hin Hcode.
    destruct (discrete_or_continuous t Hin) as [[Hd H1]|(Hs & H1 & H2)].
    + unfold Validation.validateEvent. rewrite Hty, Hc, H1.
      destruct (Validation.isValidButtonCode t c) eqn:Hv; [|reflexivity].
      apply (button_table_codeSet t c Hd) in Hv. contradiction.
    + rewrite (validateEvent_slider fields t c Hty Hs Hc).
      destruct (Validation.isValidSliderCode t c) eqn:Hv; [|reflexivity].
      apply (slider_table_codeSet t c Hs) in Hv. contradiction.
  - intros Hd Hcode Hval.
    assert (H1 : includes ["button"; "mouseButton"; "keyboard"] t = true)
      by now apply includes_In.
    apply (button_table_codeSet t c Hd) in Hcode.
    unfold Validation.validateEvent. rewrite Hty, Hc, H1, Hcode. cbn [negb].
    destruct (get (JObj fields) "value") as [[ |b| | | | ]|]; try reflexivity.
    now destruct (Hval b).
  - intros Hs Hcode Hval.
    rewrite (validateEvent_slider fields t c Hty Hs Hc).
    apply (slider_table_codeSet t c Hs) in Hcode. rewrite Hcode. cbn [negb].
    destruct (get (JObj fields) "value") as [[ | |v| | | ]|]; try reflexivity.
    destruct (Qltb v (-1 # 1) || Qltb (1 # 1) v) eqn:Hr; [reflexivity|].
    apply in_range_iff in Hr. destruct Hr as [Hlo Hhi].
    destruct (Hval v eq_refl) as [H|H];
      [destruct (Qlt_not_le _ _ H Hlo) | destruct (Qlt_not_le _ _ H Hhi)].
Qed.

Lemma validateEvent_check_order_witness :
  Validation.validateEvent
    (Samples.mkEvent "button" "leftX" (JNum (5 # 1)))
  = Throw (mkMcpError InvalidParams ("Invalid " ++ "button" ++ " code: " ++ "leftX")).
Proof.
  apply (validateEvent_check_order
           (Samples.mkEvent "button" "leftX" (JNum (5 # 1))) "button" "leftX");
    try reflexivity.
  - simpl. auto.
  - simpl. intros H. repeat destruct H as [H|H]; try discriminate H. exact H.
Defined.

(** X3. A value that is not an object or an array is rejected as such, and
    an object or array whose type or code is not a string is rejected for
    that, before any table is consulted; no other input gets either
    error. *)
Theorem validateEvent_malformed (e : json) :
  (Validation.validateEvent e
   = Throw (mkMcpError InvalidParams
              "Invalid event format: event must be an object")
   <-> (forall fields, e <> JObj fields) /\ (forall items, e <> JArr items))
  /\ (Validation.validateEvent e
      = Throw (mkMcpError InvalidParams
                 "Invalid event format: type and code must be strings")
      <-> ((exists fields, e = JObj fields) \/ (exists items, e = JArr items))
          /\ ~ (exists t c, get e "type" = Some (JStr t)
                             /\ get e "code" = Some (JStr c))).
Proof.
  assert (Hobj : forall fields,
    (exists t c, get (JObj fields) "type" = Some (JStr t)
                 /\ get (JObj fields) "code" = Some (JStr c))
    -> Validation.validateEvent (JObj fields)
       <> Throw (mkMcpError InvalidParams
                   "Invalid event format: event must be an object")
       /\ Validation.validateEvent (JObj fields)
          <> Throw (mkMcpError InvalidParams
                      "Invalid event format: type and code must be strings")).
  { intros fields (t & c & Hty & Hc).
    unfold Validation.validateEvent. rewrite Hty, Hc.
    destruct (includes ["button"; "mouseButton"; "keyboard"] t) eqn:H1.
    - apply includes_In in H1. simpl in H1.
      destruct H1 as [<-|[<-|[<-|[]]]];
        repeat match goal with
               | |- context [match ?x with _ => _ end] => destruct x
               end; split; discriminate.
    - destruct (includes ["axis"; "trigger"] t) eqn:H2.
      + apply includes_In in H2. simpl in H2.
        destruct H2 as [<-|[<-|[]]];
          repeat match goal with
                 | |- context [match ?x with _ => _ end] => destruct x
                 end; split; discriminate.
      + split; discriminate. }
  assert (Hstr : forall fields,
    ~ (exists t c, get (JObj fields) "type" = Some (JStr t)
                   /\ get (JObj fields) "code" = Some (JStr c))
    -> Validation.validateEvent (JObj fields)
       = Throw (mkMcpError InvalidParams
                  "Invalid event format: type and code must be strings")).
  { intros fields Hn. unfold Validation.validateEvent.
    destruct (get (JObj fields) "type") as [[ | | |t| | ]|];
      try reflexivity.
    destruct (get (JObj fields) "code") as [[ | | |c| | ]|];
      try reflexivity.
    destruct Hn. eauto. }
  destruct e as [ |b|q|s|items|fields].
  1-4: (split;
        [ split; [intros _; split; intros ? H; discriminate H | reflexivity]
        | split; [intros H; discriminate H
                 | intros [[[f Hf]|[f Hf]] _]; discriminate Hf] ]).
  - split.
    + split; [discriminate|]. intros [_ H]. now destruct (H items).
    + split; [intros _|reflexivity]. split; [eauto|].
      intros (t & c & Hty & _). discriminate.
  - split.
    + split; [|intros [H _]; now destruct (H fields)].
      intros H. exfalso.
      destruct (get (JObj fields) "type") as [[ | | |t| | ]|] eqn:Hty;
        try (unfold Validation.validateEvent in H; rewrite Hty in H;
             discriminate).
      destruct (get (JObj fields) "code") as [[ | | |c| | ]|] eqn:Hc;
        try (unfold Validation.validateEvent in H; rewrite Hty, Hc in H;
             discriminate).
      assert (Hex : exists t c, get (JObj fields) "type" = Some (JStr t)
                                /\ get (JObj fields) "code" = Some (JStr c))
        by (rewrite Hty, Hc; eauto).
      exact (proj1 (Hobj fields Hex) H).
    + split.
      * intros H. split; [eauto|]. intros Hex.
        exact (proj2 (Hobj fields Hex) H).
      * intros [_ Hn]. exact (Hstr fields Hn).
Qed.

(** X4. [validateEvent] reads the properties [type], [code] and [value] of
    an object and nothing else: two objects that agree on these three get
    the same verdict, each accepted one being returned whole, other
    properties included. *)
Theorem validateEvent_ignores_other_properties
      (fields1 fields2 : list (string * json)) :
  assoc "type" fields1 = assoc "type" fields2 ->
  assoc "code" fields1 = assoc "code" fields2 ->
  assoc "value" fields1 = assoc "value" fields2 ->
  match Validation.validateEvent (JObj fields1),
        Validation.validateEvent (JObj fields2) with
  | Ok r1, Ok r2 => r1 = JObj fields1 /\ r2 = JObj fields2
  | Throw e1, Throw e2 => e1 = e2
  | _, _ => False
  end.
Proof.
  intros Ht Hc Hv. unfold Validation.validateEvent. cbn [get].
  rewrite Ht, Hc, Hv.
  destruct (assoc "type" fields2) as [[ | | |t| | ]|]; auto.
  destruct (assoc "code" fields2) as [[ | | |c| | ]|]; auto.
  destruct (includes ["button"; "mouseButton"; "keyboard"] t).
  - destruct (negb (Validation.isValidButtonCode t c)); auto.
    destruct (assoc "value" fields2) as [[ | | | | | ]|]; auto.
  - destruct (includes ["axis"; "trigger"] t); auto.
    destruct (negb (Validation.isValidSliderCode t c)); auto.
    destruct (assoc "value" fields2) as [[ | |v| | | ]|]; auto.
    destruct (Qltb v (-1 # 1) || Qltb (1 # 1) v); auto.
Qed.

Lemma validateEvent_ignores_other_properties_witness :
  match Validation.validateEvent Samples.pressA,
        Validation.validateEvent
          (JObj [("player", JNum (2 # 1)); ("type", JStr "button");
                 ("code", JStr "A"); ("value", JBool true);
                 ("note", JStr "held")]) with
  | Ok r1, Ok r2 =>
      r1 = Samples.pressA
      /\ r2 = JObj [("player", JNum (2 # 1)); ("type", JStr "button");
                    ("code", JStr "A"); ("value", JBool true);
                    ("note", JStr "held")]
  | Throw e1, Throw e2 => e1 = e2
  | _, _ => False
  end.
Proof.
  apply (validateEvent_ignores_other_properties
           [("type", JStr "button"); ("code", JStr "A"); ("value", JBool true)]
           [("player", JNum (2 # 1)); ("type", JStr "button");
            ("code", JStr "A"); ("value", JBool true); ("note", JStr "held")]);
    reflexivity.
Defined.

(** ** The two revisions of [validateEvent] *)

Lemma isValidButtonCode_includes (t c : string) :
  In t ["button"; "mouseButton"; "keyboard"] ->
  Validation.isValidButtonCode t c = includes (Types.codeSet t) c.
Proof.
  intros H. apply Bool.eq_iff_eq_true. rewrite includes_In.
  now apply button_table_codeSet.
Qed.

Lemma isValidSliderCode_includes (t c : string) :
  In t ["axis"; "trigger"] ->
  Validation.isValidSliderCode t c = includes (Types.codeSet t) c.
Proof.
  intros H. apply Bool.eq_iff_eq_true. rewrite includes_In.
  now apply slider_table_codeSet.
Qed.

Lemma throw_invalid_not_returns {A : Type} (m : option string) (r : A) :
  ValidationEnum.throw_invalid m <> ValidationEnum.Returns r.
Proof. destruct m; discriminate. Qed.

Section Revisions.
Variable number_text : Q -> string.

(** What the enum based revision does with an object whose type is one of
    the five and whose code is a non-empty string. *)
Lemma enum_known_type (fields : list (string * json)) (t c : string) :
  get (JObj fields) "type" = Some (JStr t) ->
  get (JObj fields) "code" = Some (JStr c) ->
  In t Types.EventType ->
  c <> "" ->
  (ValidationEnum.validateEvent number_text (JObj fields) = ValidationEnum.Returns (JObj fields)
   <-> Validation.validateEvent (JObj fields) = Ok (JObj fields))
  /\ forall r, ValidationEnum.validateEvent number_text (JObj fields) = ValidationEnum.Returns r ->
               r = JObj fields.
Proof.
  intros Hty Hc Hin Hne.
  assert (Hce : String.eqb c "" = false) by now apply String.eqb_neq.
  unfold ValidationEnum.validateEvent, Validation.validateEvent,
    ValidationEnum.check_discrete, ValidationEnum.check_analog,
    ValidationEnum.validateAnalogValue.
  rewrite Hty, Hc. cbn [ValidationEnum.falsy ValidationEnum.includes_value].
  rewrite Hce.
  simpl in Hin.
  destruct Hin as [<-|[<-|[<-|[<-|[<-|[]]]]]].
  - rewrite (isValidButtonCode_includes "button" c) by (simpl; auto).
    change (Types.codeSet "button") with Types.ButtonCode.
    destruct (includes Types.ButtonCode c);
      cbn -[get Qltb ValidationEnum.template ValidationEnum.throw_invalid
            String.append].
    + destruct (get (JObj fields) "value") as [[ | | | | | ]|];
        (split; [split; intros H; try discriminate H; reflexivity
                | intros r H; try discriminate H; congruence]).
    + destruct (ValidationEnum.template number_text (Some (JStr c)));
        (split; [split; intros H; discriminate H | intros r H; discriminate H]).
  - rewrite (isValidSliderCode_includes "axis" c) by (simpl; auto).
    change (Types.codeSet "axis") with Types.AxisCode.
    destruct (includes Types.AxisCode c);
      cbn -[get Qltb ValidationEnum.template ValidationEnum.throw_invalid
            String.append].
    + destruct (get (JObj fields) "value") as [[ | |v| | | ]|];
        try (split; [split; intros H; discriminate H | intros r H; discriminate H]).
      destruct (Qltb v (-1 # 1) || Qltb (1 # 1) v);
        (split; [split; intros H; try discriminate H; reflexivity
                | intros r H; try discriminate H; congruence]).
    + destruct (ValidationEnum.template number_text (Some (JStr c)));
        (split; [split; intros H; discriminate H | intros r H; discriminate H]).
  - rewrite (isValidSliderCode_includes "trigger" c) by (simpl; auto).
    change (Types.codeSet "trigger") with Types.TriggerCode.
    destruct (includes Types.TriggerCode c);
      cbn -[get Qltb ValidationEnum.template ValidationEnum.throw_invalid
            String.append].
    + destruct (get (JObj fields) "value") as [[ | |v| | | ]|];
        try (split; [split; intros H; discriminate H | intros r H; discriminate H]).
      destruct (Qltb v (-1 # 1) || Qltb (1 # 1) v);
        (split; [split; intros H; try discriminate H; reflexivity
                | intros r H; try discriminate H; congruence]).
    + destruct (ValidationEnum.template number_text (Some (JStr c)));
        (split; [split; intros H; discriminate H | intros r H; discriminate H]).
  - rewrite (isValidButtonCode_includes "mouseButton" c) by (simpl; auto).
    change (Types.codeSet "mouseButton") with Types.MouseButtonCode.
    destruct (includes Types.MouseButtonCode c);
      cbn -[get Qltb ValidationEnum.template ValidationEnum.throw_invalid
            String.append].
    + destruct (get (JObj fields) "value") as [[ | | | | | ]|];
        (split; [split; intros H; try discriminate H; reflexivity
                | intros r H; try discriminate H; congruence]).
    + destruct (ValidationEnum.template number_text (Some (JStr c)));
        (split; [split; intros H; discriminate H | intros r H; discriminate H]).
  - rewrite (isValidButtonCode_includes "keyboard" c) by (simpl; auto).
    change (Types.codeSet "keyboard") with Types.KeyboardCode.
    destruct (includes Types.KeyboardCode c);
      cbn -[get Qltb ValidationEnum.template ValidationEnum.throw_invalid
            String.append].
    + destruct (get (JObj fields) "value") as [[ | | | | | ]|];
        (split; [split; intros H; try discriminate H; reflexivity
                | intros r H; try discriminate H; congruence]).
    + destruct (ValidationEnum.template number_text (Some (JStr c)));
        (split; [split; intros H; discriminate H | intros r H; discriminate H]).
Qed.

Ltac neither_accepts :=
  split;
  [ split; intros H;
    [ exfalso; revert H;
      first [apply throw_invalid_not_returns | discriminate]
    | discriminate H ]
  | intros r H; exfalso; revert H;
    first [apply throw_invalid_not_returns | discriminate] ].

(** X5. The enum based revision of [validateEvent] and the table based one
    accept the same events, and both hand back the event they were given:
    the revisions differ in their error messages only. *)
Theorem validateEvent_revisions_agree (e : json) :
  (ValidationEnum.validateEvent number_text e = ValidationEnum.Returns e
   <-> Validation.validateEvent e = Ok e)
  /\ forall r, ValidationEnum.validateEvent number_text e = ValidationEnum.Returns r -> r = e.
Proof.
  destruct e as [ |b|q|s|items|fields]; try (cbn; neither_accepts).
  destruct (get (JObj fields) "type") as [[ |b|q|t|items|fs]|] eqn:Hty;
    try (unfold ValidationEnum.validateEvent,
           Validation.validateEvent;
         rewrite Hty; cbn [ValidationEnum.includes_value negb];
         rewrite orb_true_r; neither_accepts).
  destruct (includes Types.EventType t) eqn:Hin.
  2:{ assert (Hn : ~ In t Types.EventType)
        by (intros H; apply includes_In in H; congruence).
      destruct (unknown_type_includes t Hn) as [H1 H2].
      unfold ValidationEnum.validateEvent,
        Validation.validateEvent.
      rewrite Hty. cbn [ValidationEnum.includes_value]. rewrite Hin.
      cbn [negb]. rewrite orb_true_r.
      destruct (get (JObj fields) "code") as [[ | | |c| | ]|];
        rewrite ?H1, ?H2; neither_accepts. }
  apply includes_In in Hin.
  destruct (get (JObj fields) "code") as [[ |b|q|c|items|fs]|] eqn:Hc.
  4:{ destruct (String.eqb c "") eqn:Hce.
      - apply String.eqb_eq in Hce. subst c.
        unfold ValidationEnum.validateEvent,
          Validation.validateEvent.
        rewrite Hty, Hc. simpl in Hin.
        destruct Hin as [<-|[<-|[<-|[<-|[<-|[]]]]]]; cbn; neither_accepts.
      - apply String.eqb_neq in Hce.
        exact (enum_known_type fields t c Hty Hc Hin Hce). }
  all: unfold ValidationEnum.validateEvent,
         Validation.validateEvent, ValidationEnum.check_discrete,
         ValidationEnum.check_analog;
       rewrite Hty, Hc; simpl in Hin;
       destruct Hin as [<-|[<-|[<-|[<-|[<-|[]]]]]];
       cbn -[ValidationEnum.template ValidationEnum.throw_invalid
             String.append Qeq_bool];
       repeat match goal with
              | |- context [if ?x then _ else _] => destruct x
              end;
       neither_accepts.
Qed.

Lemma validateAnalogValue_cases (value : option json) :
  match ValidationEnum.validateAnalogValue value with
  | ValidationEnum.Returns _ => True
  | ValidationEnum.Throws err => code err = InvalidParams
  | ValidationEnum.ThrowsTypeError => False
  end.
Proof.
  unfold ValidationEnum.validateAnalogValue.
  destruct value as [[ | |v| | | ]|]; try reflexivity.
  destruct (Qltb v (-1 # 1) || Qltb (1 # 1) v); [reflexivity | exact I].
Qed.

(** X6. The enum based revision returns the event it was given, or throws
    an InvalidParams error, or fails with a [TypeError] while it builds the
    message of such an error; the last happens only when the [type] or the
    [code] of the event is a value that has no text. *)
Theorem validateEvent_enum_outcome (e : json) :
  match ValidationEnum.validateEvent number_text e with
  | ValidationEnum.Returns r => r = e
  | ValidationEnum.Throws err => code err = InvalidParams
  | ValidationEnum.ThrowsTypeError =>
      exists v, (get e "type" = Some v \/ get e "code" = Some v)
                /\ ValidationEnum.to_text number_text v = None
  end.
Proof.
  unfold ValidationEnum.validateEvent, ValidationEnum.check_discrete,
    ValidationEnum.check_analog.
  destruct e as [ |b|q|s|items|fields]; try reflexivity.
  all: repeat first
         [ reflexivity
         | match goal with
           | |- context [ValidationEnum.validateAnalogValue ?x] =>
               let H := fresh "H" in
               pose proof (validateAnalogValue_cases x) as H;
               destruct (ValidationEnum.validateAnalogValue x);
               [ reflexivity | exact H | destruct H ]
           | |- match ValidationEnum.throw_invalid
                        (option_map _ (ValidationEnum.template _ ?x)) with
                | _ => _ end =>
               let Hx := fresh "Hx" in
               let Hv := fresh "Hv" in
               destruct x as [?v|] eqn:Hx; cbn [ValidationEnum.template option_map];
               [ match goal with
                 | |- context [ValidationEnum.to_text number_text ?w] =>
                     destruct (ValidationEnum.to_text number_text w) eqn:Hv
                 end;
                 cbn [ValidationEnum.throw_invalid option_map];
                 [ reflexivity | eauto ]
               | reflexivity ]
           | |- match (if ?c then _ else _) with _ => _ end => destruct c
           | |- match (match ?x with _ => _ end) with _ => _ end =>
               destruct x eqn:?
           end ].
Qed.

End Revisions.

(** A [type] that is an object with a [toString] property of its own makes
    the enum based revision fail with a [TypeError]. *)
Example enum_revision_type_error (number_text : Q -> string) :
  ValidationEnum.validateEvent number_text
    (JObj [("type", JObj [("toString", JNull)]); ("code", JStr "A");
           ("value", JBool true)])
  = ValidationEnum.ThrowsTypeError.
Proof. reflexivity. Qed.

(** ** The taxonomy and the resources that publish it *)

Lemma In_table_iff (tbl : list (string * string)) (t c : string) :
  In (t, c) tbl
  <-> existsb (fun event => String.eqb (fst event) t && String.eqb (snd event) c)
              tbl = true.
Proof.
  rewrite existsb_exists. split.
  - intros H. exists (t, c). split; [exact H|].
    simpl. now rewrite !String.eqb_refl.
  - intros ([t' c'] & H & Heq). simpl in Heq.
    apply andb_true_iff in Heq. destruct Heq as [Ht Hc].
    apply String.eqb_eq in Ht, Hc. now subst.
Qed.

Lemma button_table_types (t c : string) :
  Validation.isValidButtonCode t c = true ->
  In t ["button"; "mouseButton"; "keyboard"].
Proof.
  unfold Validation.isValidButtonCode. rewrite <- In_table_iff.
  unfold Types.VALID_BUTTON_EVENTS. intros H.
  repeat (destruct H as [H|H];
          [injection H as <- _; simpl; tauto|]).
  destruct H.
Qed.

Lemma slider_table_types (t c : string) :
  Validation.isValidSliderCode t c = true -> In t ["axis"; "trigger"].
Proof.
  unfold Validation.isValidSliderCode. rewrite <- In_table_iff.
  unfold Types.VALID_SLIDER_EVENTS. intros H.
  repeat (destruct H as [H|H];
          [injection H as <- _; simpl; tauto|]).
  destruct H.
Qed.

(** X7. The tables of the first [types.ts] and the enums of the second
    declare the same taxonomy: a pair is in the button table exactly when
    its type is button, mouseButton or keyboard and its code is in the enum
    of that type, and in the slider table exactly when its type is axis or
    trigger and its code is in the enum of that type. *)
Theorem tables_match_enums (t c : string) :
  (In (t, c) Types.VALID_BUTTON_EVENTS
   <-> In t ["button"; "mouseButton"; "keyboard"] /\ In c (Types.codeSet t))
  /\ (In (t, c) Types.VALID_SLIDER_EVENTS
      <-> In t ["axis"; "trigger"] /\ In c (Types.codeSet t)).
Proof.
  split.
  - rewrite In_table_iff.
    change (existsb _ Types.VALID_BUTTON_EVENTS)
      with (Validation.isValidButtonCode t c).
    split.
    + intros H. pose proof (button_table_types t c H) as Ht.
      split; [exact Ht|]. now apply button_table_codeSet.
    + intros [Ht Hc]. now apply button_table_codeSet.
  - rewrite In_table_iff.
    change (existsb _ Types.VALID_SLIDER_EVENTS)
      with (Validation.isValidSliderCode t c).
    split.
    + intros H. pose proof (slider_table_types t c H) as Ht.
      split; [exact Ht|]. now apply slider_table_codeSet.
    + intros [Ht Hc]. now apply slider_table_codeSet.
Qed.

(** X8. The read handler serves exactly the resources the listing
    advertises: each listed URI yields one JSON entry under that URI, and
    any other URI is rejected with InvalidRequest, naming the URI. *)
Theorem read_serves_the_listed
      (buttonEvents sliderEvents : json) (request_uri : string)
      (s : GamepadServer.server) :
  (In request_uri (map Resources.uri Resources.handleListResources) ->
   exists doc,
     Resources.handleReadResource buttonEvents sliderEvents request_uri s
     = Ok [Resources.mkContents request_uri "application/json" doc]
     /\ In (request_uri, "application/json")
           (map (fun r => (Resources.uri r, Resources.mimeType r))
                Resources.handleListResources))
  /\ (~ In request_uri (map Resources.uri Resources.handleListResources) ->
      Resources.handleReadResource buttonEvents sliderEvents request_uri s
      = Throw (mkMcpError InvalidRequest ("Unknown resource: " ++ request_uri))).
Proof.
  unfold Resources.handleReadResource. split.
  - simpl. intros [<-|[<-|[]]]; simpl; eauto 6.
  - intros Hn.
    destruct (String.eqb request_uri "gamepad://events") eqn:E1.
    { apply String.eqb_eq in E1. subst. destruct Hn. simpl. auto. }
    destruct (String.eqb request_uri "gamepad://valid-events") eqn:E2.
    { apply String.eqb_eq in E2. subst. destruct Hn. simpl. auto. }
    reflexivity.
Qed.

Lemma read_serves_the_listed_witness :
  exists doc,
    Resources.readWithTables "gamepad://events" Samples.connecting
    = Ok [Resources.mkContents "gamepad://events" "application/json" doc]
    /\ In ("gamepad://events", "application/json")
          (map (fun r => (Resources.uri r, Resources.mimeType r))
               Resources.handleListResources).
Proof.
  apply (read_serves_the_listed
           (Resources.table_json Types.VALID_BUTTON_EVENTS)
           (Resources.table_json Types.VALID_SLIDER_EVENTS)
           "gamepad://events" Samples.connecting).
  simpl. auto.
Defined.

(** X9. Reading [gamepad://events] after a call shows the batch of that
    call when every event passed [validateEvent], and what was stored
    before the call when some event did not. *)
Theorem read_after_submit
      (buttonEvents sliderEvents : json)
      (a : list (string * json)) (events : list json) (s : GamepadServer.server) :
  assoc "events" a = Some (JArr events) ->
  Resources.handleReadResource buttonEvents sliderEvents "gamepad://events"
    (snd (GamepadServer.handleCallTool
            (GamepadServer.mkRequest "send_gamepad_event" (Some a)) s))
  = Ok [ Resources.mkContents "gamepad://events" "application/json"
           (JObj [("events",
                   JArr (match map_throwing Validation.validateEvent events with
                         | Ok _ => events
                         | Throw _ => GamepadServer.lastEvents s
                         end))]) ].
Proof.
  intros Ha. unfold GamepadServer.handleCallTool.
  cbn [GamepadServer.name GamepadServer.arguments String.eqb Ascii.eqb Bool.eqb].
  rewrite (events_argument_array _ _ Ha).
  unfold GamepadServer.bindM, GamepadServer.lift.
  destruct (map_throwing Validation.validateEvent events) as [out|err] eqn:Hm.
  - destruct (map_throwing_ok_inv _ validateEvent_returns_input _ _ Hm)
      as [-> _].
    reflexivity.
  - reflexivity.
Qed.

Lemma read_after_submit_witness :
  Resources.readWithTables "gamepad://events"
    (snd (GamepadServer.handleCallTool
            (Samples.call (JArr [Samples.pressA; Samples.button_no_code]))
            (snd (GamepadServer.handleCallTool
                    (Samples.call (JArr [Samples.leftX_half]))
                    Samples.connecting))))
  = Ok [ Resources.mkContents "gamepad://events" "application/json"
           (JObj [("events", JArr [Samples.leftX_half])]) ].
Proof.
  apply (read_after_submit _ _
           [("events", JArr [Samples.pressA; Samples.button_no_code])]
           [Samples.pressA; Samples.button_no_code]).
  reflexivity.
Defined.

Lemma In_table_json (tbl : list (string * string)) (t c : string) :
  In (JObj [("type", JStr t); ("code", JStr c)])
     (map (fun event => JObj [("type", JStr (fst event));
                              ("code", JStr (snd event))]) tbl)
  <-> In (t, c) tbl.
Proof.
  rewrite in_map_iff. split.
  - intros ([t' c'] & Heq & H). simpl in Heq. now injection Heq as -> ->.
  - intros H. exists (t, c). auto.
Qed.

Lemma accepts_boolean (t c : string) :
  Validation.validateEvent (Samples.mkEvent t c (JBool true))
  = Ok (Samples.mkEvent t c (JBool true))
  <-> Validation.isValidButtonCode t c = true.
Proof.
  unfold Validation.validateEvent, Samples.mkEvent. cbn [get assoc String.eqb].
  cbn -[includes Validation.isValidButtonCode Validation.isValidSliderCode
        String.append].
  split.
  - intros H.
    destruct (includes ["button"; "mouseButton"; "keyboard"] t).
    + destruct (Validation.isValidButtonCode t c); [reflexivity|discriminate].
    + destruct (includes ["axis"; "trigger"] t); [|discriminate].
      destruct (Validation.isValidSliderCode t c); discriminate.
  - intros H. pose proof (button_table_types t c H) as Ht.
    apply includes_In in Ht. now rewrite Ht, H.
Qed.

Lemma accepts_zero (t c : string) :
  Validation.validateEvent (Samples.mkEvent t c (JNum (0 # 1)))
  = Ok (Samples.mkEvent t c (JNum (0 # 1)))
  <-> Validation.isValidSliderCode t c = true.
Proof.
  unfold Validation.validateEvent, Samples.mkEvent. cbn [get assoc String.eqb].
  cbn -[includes Validation.isValidButtonCode Validation.isValidSliderCode
        String.append].
  split.
  - intros H.
    destruct (includes ["button"; "mouseButton"; "keyboard"] t).
    + destruct (Validation.isValidButtonCode t c); discriminate.
    + destruct (includes ["axis"; "trigger"] t); [|discriminate].
      destruct (Validation.isValidSliderCode t c); [reflexivity|discriminate].
  - intros H. pose proof (slider_table_types t c H) as Ht.
    assert (H1 : includes ["button"; "mouseButton"; "keyboard"] t = false).
    { simpl in Ht. destruct Ht as [<-|[<-|[]]]; reflexivity. }
    apply includes_In in Ht. now rewrite H1, Ht, H.
Qed.

(** X10. With the tables of the first [types.ts], the [valid-events]
    resource publishes exactly what [validateEvent] accepts: a type and
    code pair is listed under [buttonEvents] exactly when the event with
    that type and code and a boolean value is accepted, and under
    [sliderEvents] exactly when the event with the value 0 is accepted. *)
Theorem valid_events_match_validator (s : GamepadServer.server) :
  exists buttons sliders,
    Resources.readWithTables "gamepad://valid-events" s
    = Ok [ Resources.mkContents "gamepad://valid-events" "application/json"
             (JObj [("buttonEvents", JArr buttons);
                    ("sliderEvents", JArr sliders)]) ]
    /\ (forall t c,
          In (JObj [("type", JStr t); ("code", JStr c)]) buttons
          <-> Validation.validateEvent (Samples.mkEvent t c (JBool true))
              = Ok (Samples.mkEvent t c (JBool true)))
    /\ (forall t c,
          In (JObj [("type", JStr t); ("code", JStr c)]) sliders
          <-> Validation.validateEvent (Samples.mkEvent t c (JNum (0 # 1)))
              = Ok (Samples.mkEvent t c (JNum (0 # 1)))).
Proof.
  eexists. eexists. split; [reflexivity|]. split; intros t c.
  - rewrite In_table_json, In_table_iff, accepts_boolean. reflexivity.
  - rewrite In_table_json, In_table_iff, accepts_zero. reflexivity.
Qed.

Section EnumResource.
Variable number_text : Q -> string.

(** X11. With the constants of the enum based [types.ts], the
    [valid-events] resource lists bare codes, and only those of gamepad
    buttons, axes and triggers.  The codes of mouse buttons and of the
    keyboard are accepted by the enum based [validateEvent] and are in
    neither list. *)
Theorem valid_events_with_enums (s : GamepadServer.server) :
  exists buttons sliders,
    Resources.readWithEnums "gamepad://valid-events" s
    = Ok [ Resources.mkContents "gamepad://valid-events" "application/json"
             (JObj [("buttonEvents", JArr buttons);
                    ("sliderEvents", JArr sliders)]) ]
    /\ (forall c, In (JStr c) buttons <-> In c (Types.codeSet "button"))
    /\ (forall c, In (JStr c) sliders
                  <-> In c (Types.codeSet "axis") \/ In c (Types.codeSet "trigger"))
    /\ (forall t c, In t ["mouseButton"; "keyboard"] -> In c (Types.codeSet t) ->
          ValidationEnum.validateEvent number_text
            (Samples.mkEvent t c (JBool true))
          = ValidationEnum.Returns (Samples.mkEvent t c (JBool true))
          /\ ~ In (JStr c) (buttons ++ sliders)).
Proof.
  eexists. eexists. split; [reflexivity|].
  assert (Hstr : forall c l, In (JStr c) (map JStr l) <-> In c l).
  { intros c l. rewrite in_map_iff. split.
    - intros (c' & Heq & H). now injection Heq as ->.
    - intros H. eauto. }
  split; [intros c; apply Hstr|]. split.
  { intros c. rewrite Hstr. unfold ValidationEnum.VALID_SLIDER_EVENTS.
    rewrite in_app_iff. reflexivity. }
  intros t c Ht Hc. split.
  - simpl in Ht. destruct Ht as [<-|[<-|[]]]; simpl in Hc;
      repeat (destruct Hc as [<-|Hc]; [reflexivity|]); destruct Hc.
  - rewrite <- map_app, Hstr.
    simpl in Ht. destruct Ht as [<-|[<-|[]]]; simpl in Hc;
      repeat (destruct Hc as [<-|Hc];
              [simpl; intros H;
               repeat (destruct H as [H|H]; [discriminate H|]); exact H|]);
      destruct Hc.
Qed.

End EnumResource.

Lemma valid_events_with_enums_witness :
  ValidationEnum.validateEvent (fun _ => "0")
    (Samples.mkEvent "keyboard" "space" (JBool true))
  = ValidationEnum.Returns (Samples.mkEvent "keyboard" "space" (JBool true))
  /\ Resources.readWithEnums "gamepad://valid-events" Samples.connecting
     = Ok [ Resources.mkContents "gamepad://valid-events" "application/json"
              (JObj [("buttonEvents",
                      Resources.codes_json Types.ButtonCode);
                     ("sliderEvents",
                      Resources.codes_json
                        (Types.AxisCode ++ Types.TriggerCode))]) ].
Proof.
  destruct (valid_events_with_enums (fun _ => "0") Samples.connecting)
    as (buttons & sliders & Hread & _ & _ & Hmissing).
  split.
  - apply (Hmissing "keyboard" "space"); simpl; auto.
  - reflexivity.
Defined.

(** ** The tool handler: errors, effects, sequences *)

Lemma map_throwing_first_throw {A B : Type} (f : A -> result B)
      (pre post : list A) (bad : A) (err : McpError) :
  Forall (fun x => exists y, f x = Ok y) pre ->
  f bad = Throw err ->
  map_throwing f (pre ++ bad :: post) = Throw err.
Proof.
  intros Hpre Hbad. induction Hpre as [|x pre [y Hy] _ IH]; simpl.
  - now rewrite Hbad.
  - now rewrite Hy, IH.
Qed.

Lemma map_throwing_throw_inv {A B : Type} (f : A -> result B)
      (l : list A) (err : McpError) :
  map_throwing f l = Throw err -> exists x, In x l /\ f x = Throw err.
Proof.
  induction l as [|x l IH]; simpl; [discriminate|].
  destruct (f x) as [y|e] eqn:Hx; simpl.
  - destruct (map_throwing f l) as [ys|e]; simpl; [discriminate|].
    intros H. injection H as <-. destruct (IH eq_refl) as (x' & Hin & Hx').
    eauto.
  - intros H. injection H as <-. eauto.
Qed.

Lemma validateEvent_error_code (e : json) (err : McpError) :
  Validation.validateEvent e = Throw err -> code err = InvalidParams.
Proof.
  unfold Validation.validateEvent. intros H.
  repeat match type of H with
         | context [match ?x with _ => _ end] => destruct x; try discriminate
         end;
    injection H as <-; reflexivity.
Qed.

(** X12. The handler reports the first event that [validateEvent] rejects:
    when the events before it are valid, the call throws the error of that
    event and leaves the server as it was, whatever follows it in the
    batch.  Both shapes of the handler do. *)
Theorem handleCallTool_reports_first_error
      (a : list (string * json)) (pre post : list json) (bad : json)
      (err : McpError) (s : GamepadServer.server) :
  assoc "events" a = Some (JArr (pre ++ bad :: post)) ->
  Forall (fun e => exists r, Validation.validateEvent e = Ok r) pre ->
  Validation.validateEvent bad = Throw err ->
  GamepadServer.handleCallTool
    (GamepadServer.mkRequest "send_gamepad_event" (Some a)) s = (Throw err, s)
  /\ GamepadServerRecheck.handleCallTool
       (GamepadServer.mkRequest "send_gamepad_event" (Some a)) s = (Throw err, s).
Proof.
  intros Ha Hpre Hbad.
  pose proof (map_throwing_first_throw _ pre post bad err Hpre Hbad) as Hm.
  unfold GamepadServer.handleCallTool, GamepadServerRecheck.handleCallTool.
  cbn [GamepadServer.name GamepadServer.arguments String.eqb Ascii.eqb Bool.eqb].
  rewrite (events_argument_array _ _ Ha).
  unfold GamepadServer.bindM, GamepadServer.lift. rewrite Hm. auto.
Qed.

Lemma handleCallTool_reports_first_error_witness :
  GamepadServer.handleCallTool
    (Samples.call (JArr [Samples.pressA; Samples.button_no_code;
                         Samples.mkEvent "axis" "leftX" (JBool true)]))
    Samples.connected
  = (Throw (mkMcpError InvalidParams "Invalid button code: leftX"),
     Samples.connected)
  /\ GamepadServerRecheck.handleCallTool
       (Samples.call (JArr [Samples.pressA; Samples.button_no_code;
                            Samples.mkEvent "axis" "leftX" (JBool true)]))
       Samples.connected
     = (Throw (mkMcpError InvalidParams "Invalid button code: leftX"),
        Samples.connected).
Proof.
  apply (handleCallTool_reports_first_error
           [("events", JArr [Samples.pressA; Samples.button_no_code;
                             Samples.mkEvent "axis" "leftX" (JBool true)])]
           [Samples.pressA]
           [Samples.mkEvent "axis" "leftX" (JBool true)]
           Samples.button_no_code).
  - reflexivity.
  - repeat constructor. eexists. reflexivity.
  - reflexivity.
Defined.

(** X13. The handler throws MethodNotFound exactly for a tool name other
    than [send_gamepad_event], and then touches nothing; every error of a
    call to [send_gamepad_event] carries InvalidParams. *)
Theorem handleCallTool_error_codes
      (request : GamepadServer.CallToolRequest) (s : GamepadServer.server)
      (err : McpError) :
  fst (GamepadServer.handleCallTool request s) = Throw err ->
  (GamepadServer.name request = "send_gamepad_event"
   /\ code err = InvalidParams)
  \/ (GamepadServer.name request <> "send_gamepad_event"
      /\ err = mkMcpError MethodNotFound
                 ("Unknown tool: " ++ GamepadServer.name request)
      /\ snd (GamepadServer.handleCallTool request s) = s).
Proof.
  unfold GamepadServer.handleCallTool.
  destruct (String.eqb (GamepadServer.name request) "send_gamepad_event") eqn:En.
  - apply String.eqb_eq in En. intros H. left. split; [exact En|].
    destruct (GamepadServer.events_argument (GamepadServer.arguments request))
      as [events|].
    + unfold GamepadServer.bindM, GamepadServer.lift in H.
      destruct (map_throwing Validation.validateEvent events) as [out|e] eqn:Hm;
        simpl in H; [discriminate|].
      injection H as <-.
      destruct (map_throwing_throw_inv _ _ _ Hm) as (x & _ & Hx).
      exact (validateEvent_error_code x e Hx).
    + simpl in H. injection H as <-. reflexivity.
  - apply String.eqb_neq in En. intros H. right.
    simpl in H. injection H as <-. auto.
Qed.

Lemma handleCallTool_error_codes_witness :
  (GamepadServer.name (GamepadServer.mkRequest "press_button" None)
   = "send_gamepad_event"
   /\ code (mkMcpError MethodNotFound "Unknown tool: press_button")
      = InvalidParams)
  \/ (GamepadServer.name (GamepadServer.mkRequest "press_button" None)
      <> "send_gamepad_event"
      /\ mkMcpError MethodNotFound "Unknown tool: press_button"
         = mkMcpError MethodNotFound
             ("Unknown tool: "
              ++ GamepadServer.name (GamepadServer.mkRequest "press_button" None))
      /\ snd (GamepadServer.handleCallTool
                (GamepadServer.mkRequest "press_button" None) Samples.connected)
         = Samples.connected).
Proof.
  apply (handleCallTool_error_codes
           (GamepadServer.mkRequest "press_button" None) Samples.connected).
  reflexivity.
Defined.

Lemma map_readyState_update (id : nat) (g : WebSocketHandler.WebSocket -> list json)
      (l : list WebSocketHandler.WebSocket) :
  map WebSocketHandler.readyState
      (WebSocketHandler.update id
         (fun w => WebSocketHandler.mkWebSocket (WebSocketHandler.readyState w) (g w))
         l)
  = map WebSocketHandler.readyState l.
Proof.
  revert id. induction l as [|w l IH]; intros [|id]; simpl;
    try reflexivity. now rewrite IH.
Qed.

(** [send] leaves the handle, the timer and the state of every socket as
    they are. *)
Lemma send_keeps_connection (ev : json) (s : WebSocketHandler.state) :
  WebSocketHandler.ws (WebSocketHandler.send ev s) = WebSocketHandler.ws s
  /\ WebSocketHandler.wsReconnectInterval (WebSocketHandler.send ev s)
     = WebSocketHandler.wsReconnectInterval s
  /\ WebSocketHandler.intervals (WebSocketHandler.send ev s)
     = WebSocketHandler.intervals s
  /\ map WebSocketHandler.readyState
         (WebSocketHandler.sockets (WebSocketHandler.send ev s))
     = map WebSocketHandler.readyState (WebSocketHandler.sockets s).
Proof.
  unfold WebSocketHandler.send, WebSocketHandler.socket_send.
  destruct (WebSocketHandler.ws s) as [id|] eqn:Hws; [|now rewrite <- Hws].
  destruct (WebSocketHandler.readyStateOf s id) as [[]|] eqn:Hrs;
    try (repeat split; first [exact Hws | reflexivity]).
  assert (Hrs' :
    WebSocketHandler.readyStateOf
      (WebSocketHandler.log
         (WebSocketHandler.Sending
            (JObj [("events",
                    JArr match ev with JArr items => items | _ => [ev] end)]))
         s) id = Some WebSocketHandler.OPEN) by exact Hrs.
  rewrite Hrs'. repeat split; try exact Hws.
  cbn [WebSocketHandler.sockets WebSocketHandler.set_sockets WebSocketHandler.log].
  apply map_readyState_update.
Qed.

(** X14. A tool call never acts on the connection: whatever the request,
    and whether it returns or throws, the socket handle, the reconnection
    timer and the state of every socket are the same afterwards, and no
    socket is constructed.  Both shapes of the handler. *)
Theorem handleCallTool_keeps_connection
      (request : GamepadServer.CallToolRequest) (s : GamepadServer.server) :
  let same (h h' : WebSocketHandler.state) :=
    WebSocketHandler.ws h' = WebSocketHandler.ws h
    /\ WebSocketHandler.wsReconnectInterval h'
       = WebSocketHandler.wsReconnectInterval h
    /\ WebSocketHandler.intervals h' = WebSocketHandler.intervals h
    /\ map WebSocketHandler.readyState (WebSocketHandler.sockets h')
       = map WebSocketHandler.readyState (WebSocketHandler.sockets h) in
  same (GamepadServer.wsHandler s)
       (GamepadServer.wsHandler (snd (GamepadServer.handleCallTool request s)))
  /\ same (GamepadServer.wsHandler s)
          (GamepadServer.wsHandler
             (snd (GamepadServerRecheck.handleCallTool request s))).
Proof.
  intros same. unfold same.
  unfold GamepadServer.handleCallTool, GamepadServerRecheck.handleCallTool.
  destruct (String.eqb (GamepadServer.name request) "send_gamepad_event");
    [|simpl; auto 10].
  destruct (GamepadServer.events_argument (GamepadServer.arguments request))
    as [events|]; [|simpl; auto 10].
  unfold GamepadServer.bindM, GamepadServer.lift.
  destruct (map_throwing Validation.validateEvent events) as [out|e];
    [|simpl; auto 10].
  cbn [GamepadServer.console_error GamepadServer.set_lastEvents
       GamepadServer.wsHandler_send GamepadServer.modify GamepadServer.ret
       GamepadServer.wsHandler GamepadServer.lastEvents fst snd].
  set (h := WebSocketHandler.log _ (GamepadServer.wsHandler s)).
  pose proof (send_keeps_connection (JArr out) h) as Hsend.
  split; [exact Hsend|].
  destruct (GamepadServerRecheck.for_each GamepadServerRecheck.recheck out);
    exact Hsend.
Qed.

Lemma recheck_of_valid (e r : json) :
  Validation.validateEvent e = Ok r ->
  (GamepadServerRecheck.recheck e = Ok tt
   /\ ~ (get e "type" = Some (JStr "trigger")
         /\ exists v, get e "value" = Some (JNum v) /\ (v < (0 # 1))%Q))
  \/ (GamepadServerRecheck.recheck e
      = Throw (mkMcpError InvalidParams
                 "Trigger values must be numbers between 0 and 1")
      /\ get e "type" = Some (JStr "trigger")
      /\ exists v, get e "value" = Some (JNum v) /\ (v < (0 # 1))%Q).
Proof.
  intros H.
  destruct e as [ | | | |items|fields]; try discriminate H.
  unfold Validation.validateEvent in H.
  unfold GamepadServerRecheck.recheck.
  destruct (get (JObj fields) "type") as [[ | | |t| | ]|] eqn:Hty;
    try discriminate H.
  destruct (get (JObj fields) "code") as [[ | | |c| | ]|] eqn:Hc;
    try discriminate H.
  destruct (includes ["button"; "mouseButton"; "keyboard"] t) eqn:H1.
  - destruct (negb (Validation.isValidButtonCode t c)); [discriminate H|].
    apply includes_In in H1. simpl in H1.
    destruct (get (JObj fields) "value") as [[ |b| | | | ]|] eqn:Hv;
      try discriminate H.
    left. destruct H1 as [<-|[<-|[<-|[]]]];
      (split; [reflexivity | intros [Ht _]; discriminate Ht]).
  - destruct (includes ["axis"; "trigger"] t) eqn:H2; [|discriminate H].
    destruct (negb (Validation.isValidSliderCode t c)); [discriminate H|].
    destruct (get (JObj fields) "value") as [[ | |v| | | ]|] eqn:Hv;
      try discriminate H.
    destruct (Qltb v (-1 # 1) || Qltb (1 # 1) v) eqn:Hr; [discriminate H|].
    apply includes_In in H2. simpl in H2. destruct H2 as [<-|[<-|[]]].
    + left. cbn -[Qltb].
      split; [reflexivity | intros [Ht _]; discriminate Ht].
    + cbn -[Qltb]. apply orb_false_iff in Hr. destruct Hr as [_ Hhi].
      rewrite Hhi, orb_false_r.
      destruct (Qltb v (0 # 1)) eqn:Hlo.
      * right. apply Qltb_lt in Hlo. repeat split; eauto.
      * left. split; [reflexivity|].
        intros [_ (v' & Hv' & Hlt)]. injection Hv' as <-.
        apply Qltb_lt in Hlt. congruence.
Qed.

(** X15. The handler that checks the values again differs from the other
    one only in its answer, and only for a trigger below 0.  On a batch
    that passes [validateEvent] both leave the same server state; the
    second check passes when no event is a trigger with a negative value,
    and otherwise throws "Trigger values must be numbers between 0 and 1"
    after the batch has been stored and sent. *)
Theorem recheck_differs_on_negative_trigger
      (a : list (string * json)) (events : list json) (s : GamepadServer.server) :
  assoc "events" a = Some (JArr events) ->
  Forall (fun e => exists r, Validation.validateEvent e = Ok r) events ->
  let request := GamepadServer.mkRequest "send_gamepad_event" (Some a) in
  let negative_trigger (e : json) :=
    get e "type" = Some (JStr "trigger")
    /\ exists v, get e "value" = Some (JNum v) /\ (v < (0 # 1))%Q in
  snd (GamepadServerRecheck.handleCallTool request s)
  = snd (GamepadServer.handleCallTool request s)
  /\ (Forall (fun e => ~ negative_trigger e) events ->
      fst (GamepadServerRecheck.handleCallTool request s)
      = fst (GamepadServer.handleCallTool request s))
  /\ (Exists negative_trigger events ->
      fst (GamepadServerRecheck.handleCallTool request s)
      = Throw (mkMcpError InvalidParams
                 "Trigger values must be numbers between 0 and 1")).
Proof.
  intros Ha Hall request negative_trigger.
  pose proof (map_throwing_all_ok _ validateEvent_returns_input _ Hall) as Hm.
  assert (Hfe :
    (Forall (fun e => ~ negative_trigger e) events ->
     GamepadServerRecheck.for_each GamepadServerRecheck.recheck events = Ok tt)
    /\ (Exists negative_trigger events ->
        GamepadServerRecheck.for_each GamepadServerRecheck.recheck events
        = Throw (mkMcpError InvalidParams
                   "Trigger values must be numbers between 0 and 1"))).
  { clear Hm Ha. induction Hall as [|e events [r Hr] _ IH].
    - split; [reflexivity | intros H; inversion H].
    - destruct IH as [IH1 IH2]. simpl.
      destruct (recheck_of_valid e r Hr) as [[Hok Hnn]|[Hthrow Hneg]].
      + rewrite Hok. simpl. split.
        * intros H. inversion H; subst. auto.
        * intros H. inversion H; subst; [contradiction | auto].
      + rewrite Hthrow. simpl. split.
        * intros H. inversion H; subst. contradiction.
        * reflexivity. }
  subst request.
  unfold GamepadServer.handleCallTool, GamepadServerRecheck.handleCallTool.
  cbn [GamepadServer.name GamepadServer.arguments String.eqb Ascii.eqb Bool.eqb].
  rewrite (events_argument_array _ _ Ha).
  unfold GamepadServer.bindM, GamepadServer.lift. rewrite Hm.
  cbn [GamepadServer.console_error GamepadServer.set_lastEvents
       GamepadServer.wsHandler_send GamepadServer.modify GamepadServer.ret
       fst snd].
  destruct Hfe as [Hf1 Hf2].
  split; [|split].
  - destruct (GamepadServerRecheck.for_each GamepadServerRecheck.recheck events);
      reflexivity.
  - intros H. now rewrite (Hf1 H).
  - intros H. now rewrite (Hf2 H).
Qed.

Lemma recheck_differs_on_negative_trigger_witness :
  fst (GamepadServerRecheck.handleCallTool
         (Samples.call (JArr [Samples.pressA; Samples.trigger_neg]))
         Samples.connected)
  = Throw (mkMcpError InvalidParams
             "Trigger values must be numbers between 0 and 1")
  /\ snd (GamepadServerRecheck.handleCallTool
            (Samples.call (JArr [Samples.pressA; Samples.trigger_neg]))
            Samples.connected)
     = snd (GamepadServer.handleCallTool
              (Samples.call (JArr [Samples.pressA; Samples.trigger_neg]))
              Samples.connected).
Proof.
  destruct (recheck_differs_on_negative_trigger
              [("events", JArr [Samples.pressA; Samples.trigger_neg])]
              [Samples.pressA; Samples.trigger_neg] Samples.connected)
    as (Hstate & _ & Hthrow).
  - reflexivity.
  - repeat constructor; eexists; reflexivity.
  - split; [|exact Hstate]. apply Hthrow.
    apply Exists_cons_tl. apply Exists_cons_hd.
    split; [reflexivity|]. exists (-1 # 2)%Q. split; reflexivity.
Defined.

Lemma send_on_open (ev : json) (s : WebSocketHandler.state) (id : nat)
      (w : WebSocketHandler.WebSocket) :
  WebSocketHandler.ws s = Some id ->
  nth_error (WebSocketHandler.sockets s) id = Some w ->
  WebSocketHandler.readyState w = WebSocketHandler.OPEN ->
  WebSocketHandler.ws (WebSocketHandler.send ev s) = Some id
  /\ nth_error (WebSocketHandler.sockets (WebSocketHandler.send ev s)) id
     = Some (WebSocketHandler.mkWebSocket WebSocketHandler.OPEN
               (WebSocketHandler.frames w
                ++ [JObj [("events",
                           JArr match ev with
                                | JArr items => items
                                | _ => [ev]
                                end)]])).
Proof.
  intros Hid Hw Hopen.
  unfold WebSocketHandler.send, WebSocketHandler.socket_send,
    WebSocketHandler.readyStateOf.
  rewrite Hid. cbn [WebSocketHandler.log WebSocketHandler.sockets].
  rewrite Hw. cbn [option_map]. rewrite Hopen.
  cbn [WebSocketHandler.ws WebSocketHandler.sockets WebSocketHandler.set_sockets].
  split; [exact Hid|].
  rewrite (nth_error_update_same _ _ _ _ Hw). now rewrite Hopen.
Qed.

Lemma last_cons_default {A : Type} (x d : A) (l : list A) :
  last (x :: l) d = last l x.
Proof.
  revert x d. induction l as [|y l IH]; intros x d; [reflexivity|].
  change (last (x :: y :: l) d) with (last (y :: l) d).
  now rewrite !IH.
Qed.

(** X16. Valid batches submitted one after the other while the manager is
    connected reach the socket as one frame each, in the order of
    submission and after the frames already there; [lastEvents] ends up
    being the last batch, not a merge of them. *)
Theorem submissions_in_order
      (batches : list (list json)) (s : GamepadServer.server) (id : nat)
      (w : WebSocketHandler.WebSocket) :
  Forall (Forall (fun e => exists r, Validation.validateEvent e = Ok r)) batches ->
  WebSocketHandler.ws (GamepadServer.wsHandler s) = Some id ->
  nth_error (WebSocketHandler.sockets (GamepadServer.wsHandler s)) id = Some w ->
  WebSocketHandler.readyState w = WebSocketHandler.OPEN ->
  let s' := Traces.submit_all batches s in
  nth_error (WebSocketHandler.sockets (GamepadServer.wsHandler s')) id
  = Some (WebSocketHandler.mkWebSocket WebSocketHandler.OPEN
            (WebSocketHandler.frames w ++ map Traces.frame_of batches))
  /\ GamepadServer.lastEvents s' = last batches (GamepadServer.lastEvents s).
Proof.
  intros Hall. revert s w.
  induction Hall as [|batch batches Hb _ IH]; intros s w Hid Hw Hopen s'.
  - subst s'. simpl. rewrite app_nil_r, <- Hopen. split; [|reflexivity].
    rewrite Hw. now destruct w.
  - subst s'. unfold Traces.submit_all. cbn [fold_left].
    rewrite (handleCallTool_accepts_valid
               [("events", JArr batch)] batch s eq_refl Hb).
    cbn [snd].
    set (h := WebSocketHandler.log _ (GamepadServer.wsHandler s)).
    destruct (send_on_open (JArr batch) h id w Hid Hw Hopen) as [Hid1 Hw1].
    set (s1 := GamepadServer.mkServer batch (WebSocketHandler.send (JArr batch) h)).
    specialize (IH s1 _ Hid1 Hw1 eq_refl).
    unfold Traces.submit_all in IH. cbn zeta in IH.
    destruct IH as [IH1 IH2]. split.
    + rewrite IH1. cbn [WebSocketHandler.frames map].
      now rewrite <- app_assoc.
    + rewrite IH2. cbn [GamepadServer.lastEvents s1].
      symmetry. apply last_cons_default.
Qed.

Lemma submissions_in_order_witness :
  let s' := Traces.submit_all [[Samples.pressA]; [Samples.leftX_half]]
                              Samples.connected in
  nth_error (WebSocketHandler.sockets (GamepadServer.wsHandler s')) 0
  = Some (WebSocketHandler.mkWebSocket WebSocketHandler.OPEN
            ([] ++ map Traces.frame_of [[Samples.pressA]; [Samples.leftX_half]]))
  /\ GamepadServer.lastEvents s'
     = last [[Samples.pressA]; [Samples.leftX_half]]
            (GamepadServer.lastEvents Samples.connected).
Proof.
  apply (submissions_in_order [[Samples.pressA]; [Samples.leftX_half]]
           Samples.connected 0
           (WebSocketHandler.mkWebSocket WebSocketHandler.OPEN []));
    try reflexivity.
  repeat constructor; eexists; reflexivity.
Defined.

(** X17. Every example the listing with boolean values publishes is
    accepted when a client sends its parameters: the answer is success with
    the number of events of the example, and the batch is stored. *)
Theorem published_examples_accepted (example : json) (s : GamepadServer.server) :
  In example ListingWithBooleans.examples ->
  exists events,
    get example "parameters" = Some (JObj [("events", JArr events)])
    /\ fst (GamepadServer.handleCallTool (call_example example) s)
       = Ok (Samples.accepted (length events))
    /\ GamepadServer.lastEvents
         (snd (GamepadServer.handleCallTool (call_example example) s))
       = events.
Proof.
  unfold ListingWithBooleans.examples. intros H.
  repeat (destruct H as [<-|H];
          [eexists; split; [reflexivity|]; split; reflexivity|]).
  destruct H.
Qed.

Lemma published_examples_accepted_witness :
  exists events,
    get (ListingWithBooleans.example "Press space"
           [ListingWithBooleans.event "keyboard" "space" (JBool true)])
        "parameters"
    = Some (JObj [("events", JArr events)])
    /\ fst (GamepadServer.handleCallTool
              (call_example
                 (ListingWithBooleans.example "Press space"
                    [ListingWithBooleans.event "keyboard" "space" (JBool true)]))
              Samples.connecting)
       = Ok (Samples.accepted (length events))
    /\ GamepadServer.lastEvents
         (snd (GamepadServer.handleCallTool
                 (call_example
                    (ListingWithBooleans.example "Press space"
                       [ListingWithBooleans.event "keyboard" "space" (JBool true)]))
                 Samples.connecting))
       = events.
Proof.
  apply (published_examples_accepted
           (ListingWithBooleans.example "Press space"
              [ListingWithBooleans.event "keyboard" "space" (JBool true)])
           Samples.connecting).
  simpl. auto 10.
Defined.

(** X18. Of the examples published by the listing built from the enums,
    which writes 1 for a pressed button, the handler of the same file
    accepts only the one that moves the left stick.  The others are
    rejected with InvalidParams, a button, mouse button or key needing a
    boolean, and the server is left as it was. *)
Theorem published_number_examples (example : json) (s : GamepadServer.server) :
  In example ListingWithEnums.examples ->
  (get example "name" = Some (JStr "Move left stick")
   /\ fst (GamepadServerRecheck.handleCallTool (call_example example) s)
      = Ok (Samples.accepted 2))
  \/ (get example "name" <> Some (JStr "Move left stick")
      /\ exists msg,
           GamepadServerRecheck.handleCallTool (call_example example) s
           = (Throw (mkMcpError InvalidParams msg), s)).
Proof.
  unfold ListingWithEnums.examples. intros H.
  destruct H as [<-|[<-|[<-|[<-|[<-|[]]]]]].
  - right. split; [discriminate|]. eexists. reflexivity.
  - left. split; reflexivity.
  - right. split; [discriminate|]. eexists. reflexivity.
  - right. split; [discriminate|]. eexists. reflexivity.
  - right. split; [discriminate|]. eexists. reflexivity.
Qed.

Lemma published_number_examples_witness :
  (get (ListingWithBooleans.example "Press A button"
          [ListingWithBooleans.event "button" "A" (JNum (1 # 1))]) "name"
   = Some (JStr "Move left stick")
   /\ fst (GamepadServerRecheck.handleCallTool
             (call_example
                (ListingWithBooleans.example "Press A button"
                   [ListingWithBooleans.event "button" "A" (JNum (1 # 1))]))
             Samples.connected)
      = Ok (Samples.accepted 2))
  \/ (get (ListingWithBooleans.example "Press A button"
             [ListingWithBooleans.event "button" "A" (JNum (1 # 1))]) "name"
      <> Some (JStr "Move left stick")
      /\ exists msg,
           GamepadServerRecheck.handleCallTool
             (call_example
                (ListingWithBooleans.example "Press A button"
                   [ListingWithBooleans.event "button" "A" (JNum (1 # 1))]))
             Samples.connected
           = (Throw (mkMcpError InvalidParams msg), Samples.connected)).
Proof.
  apply (published_number_examples
           (ListingWithBooleans.example "Press A button"
              [ListingWithBooleans.event "button" "A" (JNum (1 # 1))])
           Samples.connected).
  simpl. auto.
Defined.

Lemma accepted_in_a_table (t c : string) (v r : json) :
  Validation.validateEvent (Samples.mkEvent t c v) = Ok r ->
  Validation.isValidButtonCode t c = true
  \/ Validation.isValidSliderCode t c = true.
Proof.
  unfold Validation.validateEvent, Samples.mkEvent. cbn [get assoc String.eqb].
  cbn -[includes Validation.isValidButtonCode Validation.isValidSliderCode
        String.append Qltb].
  destruct (includes ["button"; "mouseButton"; "keyboard"] t).
  - destruct (Validation.isValidButtonCode t c); intros H;
      [now left | discriminate H].
  - destruct (includes ["axis"; "trigger"] t); [|intros H; discriminate H].
    destruct (Validation.isValidSliderCode t c); intros H;
      [now right | discriminate H].
Qed.

Lemma accepted_is_listed (t c : string) (v r : json) :
  Validation.validateEvent (Samples.mkEvent t c v) = Ok r ->
  In (t, c) (Types.VALID_BUTTON_EVENTS ++ Types.VALID_SLIDER_EVENTS).
Proof.
  intros H. apply in_or_app.
  destruct (accepted_in_a_table t c v r H) as [E|E];
    [left | right]; now apply In_table_iff.
Qed.

Lemma listed_is_accepted (t c : string) :
  In (t, c) (Types.VALID_BUTTON_EVENTS ++ Types.VALID_SLIDER_EVENTS) ->
  exists v r, Validation.validateEvent (Samples.mkEvent t c v) = Ok r.
Proof.
  intros H. apply in_app_or in H. destruct H as [H|H];
    apply In_table_iff in H.
  - exists (JBool true). eexists. now apply accepts_boolean.
  - exists (JNum (0 # 1)). eexists. now apply accepts_zero.
Qed.

(** X19. The schema that the listing built from the enums advertises is
    wider than the validator.  Its [type] enum is exactly the set of types
    for which some event is accepted, and every accepted code is in its
    [code] enum; but a code of that enum is accepted, under some type and
    value, only if it is one of the codes of [types.ts], and the enum has
    codes, such as [dpadHorz], that are not. *)
Theorem advertised_schema_is_wider :
  (forall t, In t ListingWithEnums.EventType
             <-> exists c v r,
                   Validation.validateEvent (Samples.mkEvent t c v) = Ok r)
  /\ (forall c, (exists t v r,
                   Validation.validateEvent (Samples.mkEvent t c v) = Ok r)
                <-> In c ListingWithEnums.code_enum
                    /\ In c (map snd (Types.VALID_BUTTON_EVENTS
                                      ++ Types.VALID_SLIDER_EVENTS)))
  /\ (In "dpadHorz" ListingWithEnums.code_enum
      /\ forall t v r,
           Validation.validateEvent (Samples.mkEvent t "dpadHorz" v) <> Ok r).
Proof.
  assert (Hcodes : forall c,
    In c (map snd (Types.VALID_BUTTON_EVENTS ++ Types.VALID_SLIDER_EVENTS)) ->
    In c ListingWithEnums.code_enum).
  { intros c H. apply includes_In. simpl in H.
    repeat (destruct H as [<-|H]; [reflexivity|]). destruct H. }
  split; [|split].
  - intros t. split.
    + simpl. intros [<-|[<-|[<-|[<-|[<-|[]]]]]].
      * exists "A", (JBool true). eexists. reflexivity.
      * exists "leftX", (JNum (0 # 1)). eexists. reflexivity.
      * exists "leftTrigger", (JNum (0 # 1)). eexists. reflexivity.
      * exists "leftClick", (JBool true). eexists. reflexivity.
      * exists "space", (JBool true). eexists. reflexivity.
    + intros (c & v & r & H). apply accepted_is_listed in H.
      apply in_app_or in H. destruct H as [H|H]; apply In_table_iff in H.
      * apply button_table_types in H. simpl in *. intuition.
      * apply slider_table_types in H. simpl in *. intuition.
  - intros c. split.
    + intros (t & v & r & H). apply accepted_is_listed in H.
      assert (Hc : In c (map snd (Types.VALID_BUTTON_EVENTS
                                  ++ Types.VALID_SLIDER_EVENTS)))
        by (apply in_map_iff; exists (t, c); auto).
      split; [now apply Hcodes | exact Hc].
    + intros [_ H]. apply in_map_iff in H.
      destruct H as ([t c'] & Heq & H). simpl in Heq. subst c'.
      destruct (listed_is_accepted t c H) as (v & r & Hv). eauto.
  - split; [apply includes_In; reflexivity|].
    intros t v r H. apply accepted_is_listed in H. simpl in H.
    repeat (destruct H as [H|H]; [discriminate H|]). destruct H.
Qed.

(** ** The connection manager over whole traces *)

Section Traces.
Import WebSocketHandler.

Lemma length_update {A : Type} (i : nat) (f : A -> A) (l : list A) :
  length (update i f l) = length l.
Proof.
  revert i. induction l as [|x l IH]; intros [|i]; simpl; auto.
Qed.

Lemma setupReconnection_fields (s : state) :
  ws (setupReconnection s) = ws s
  /\ sockets (setupReconnection s) = sockets s.
Proof.
  unfold setupReconnection, setInterval, set_wsReconnectInterval.
  destruct (wsReconnectInterval s); auto.
Qed.

Lemma connect_handle_invariant (throws : bool) (s : state) :
  Traces.handle_invariant s -> Traces.handle_invariant (connect throws s).
Proof.
  unfold Traces.handle_invariant, connect. intros H.
  destruct (match ws s with Some _ => _ | None => _ end); [exact H|].
  destruct throws.
  - destruct (setupReconnection_fields
                (log ErrorCreating (log (ConnectingTo (WS_URL s)) s)))
      as [-> ->]. exact H.
  - cbn. rewrite length_app. simpl. lia.
Qed.

Lemma send_handle_invariant (ev : json) (s : state) :
  Traces.handle_invariant s -> Traces.handle_invariant (send ev s).
Proof.
  unfold Traces.handle_invariant.
  destruct (send_keeps_connection ev s) as (Hws & _ & _ & Hrs).
  rewrite Hws.
  assert (Hlen : length (sockets (send ev s)) = length (sockets s)).
  { rewrite <- (length_map readyState), Hrs. apply length_map. }
  now rewrite Hlen.
Qed.

Lemma step_handle_invariant (s s' : state) (e : event) :
  Traces.handle_invariant s -> step s e = Some s' -> Traces.handle_invariant s'.
Proof.
  intros H Hs.
  destruct e as [throws|throws|id|id data parsed|id cd reason|id msg|ev];
    simpl in Hs.
  - injection Hs as <-. now apply connect_handle_invariant.
  - destruct (intervals s); [discriminate|]. injection Hs as <-.
    unfold reconnectTick. apply connect_handle_invariant. exact H.
  - destruct (readyStateOf s id) as [[]|]; try discriminate.
    injection Hs as <-. unfold Traces.handle_invariant, handleOpen in *.
    cbn. destruct (wsReconnectInterval s); cbn; now rewrite length_update.
  - destruct (readyStateOf s id) as [[]|]; try discriminate.
    injection Hs as <-. destruct parsed; exact H.
  - assert (Hn : forall s0, Traces.handle_invariant (handleClose cd reason s0)).
    { intros s0. unfold Traces.handle_invariant.
      now rewrite (proj1 (handleClose_fields cd reason s0)). }
    destruct (readyStateOf s id) as [[]|]; try discriminate;
      injection Hs as <-; apply Hn.
  - assert (He : forall rs, Traces.handle_invariant
                              (handleError msg (set_readyState id rs s))).
    { intros rs. unfold Traces.handle_invariant, handleError in *.
      destruct (str_includes _ _); cbn; now rewrite length_update. }
    destruct (readyStateOf s id) as [[]|]; try discriminate;
      injection Hs as <-; apply He.
  - injection Hs as <-. now apply send_handle_invariant.
Qed.

Lemma run_handle_invariant (tr : list event) (s s' : state) :
  Traces.handle_invariant s -> run s tr = Some s' -> Traces.handle_invariant s'.
Proof.
  revert s. induction tr as [|e tr IH]; simpl; intros s H Hr.
  - now injection Hr as <-.
  - destruct (step s e) as [s1|] eqn:Hs; [|discriminate].
    exact (IH s1 (step_handle_invariant _ _ _ H Hs) Hr).
Qed.

(** X20. In every state the manager can reach, the socket handle, when it
    is set, names the socket constructed last; so it always names a socket
    that exists, and a socket constructed earlier is never held again. *)
Theorem handle_names_newest_socket
      (url : string) (tr : list event) (s : state) (id : nat) :
  run (constructor url) tr = Some s ->
  ws s = Some id ->
  S id = length (sockets s) /\ exists rs, readyStateOf s id = Some rs.
Proof.
  intros Hr Hid.
  assert (Hinv : Traces.handle_invariant s)
    by (apply (run_handle_invariant tr (constructor url)); [exact I | exact Hr]).
  unfold Traces.handle_invariant in Hinv. rewrite Hid in Hinv.
  split; [exact Hinv|]. unfold readyStateOf.
  destruct (nth_error (sockets s) id) as [w|] eqn:Hw; [simpl; eauto|].
  apply nth_error_None in Hw. lia.
Qed.

Lemma handle_names_newest_socket_witness :
  exists s,
    run (constructor "ws://127.0.0.1:13123") Samples.stalled_reconnect = Some s
    /\ 3%nat = length (sockets s)
    /\ exists rs, readyStateOf s 2 = Some rs.
Proof.
  eexists. split; [vm_compute; reflexivity|].
  apply (handle_names_newest_socket "ws://127.0.0.1:13123"
           Samples.stalled_reconnect); vm_compute; reflexivity.
Defined.

Lemma framesSent_set_readyState (id : nat) (rs : ReadyState) (s : state) :
  framesSent (set_readyState id rs s) = framesSent s.
Proof.
  unfold framesSent, set_readyState. cbn [sockets set_sockets].
  generalize (sockets s). intros l. revert id.
  induction l as [|w l IH]; intros [|id]; simpl; try reflexivity.
  now rewrite IH.
Qed.

Lemma framesSent_connect (throws : bool) (s : state) :
  framesSent (connect throws s) = framesSent s.
Proof.
  unfold framesSent, connect.
  destruct (match ws s with Some _ => _ | None => _ end); [reflexivity|].
  destruct throws.
  - now rewrite (proj2 (setupReconnection_fields _)).
  - cbn. rewrite flat_map_app. simpl. now rewrite app_nil_r.
Qed.

Lemma framesSent_send (ev : json) (s : state) :
  length (framesSent (send ev s)) = length (framesSent s)
  \/ length (framesSent (send ev s)) = S (length (framesSent s)).
Proof.
  unfold send, socket_send.
  destruct (ws s) as [id|]; [|now left].
  destruct (readyStateOf s id) as [[]|] eqn:Hrs; try (now left).
  assert (Hrs' : readyStateOf
                   (log (Sending (JObj [("events",
                      JArr match ev with JArr items => items | _ => [ev] end)]))
                        s) id = Some OPEN) by exact Hrs.
  rewrite Hrs'. right. unfold framesSent.
  cbn [sockets set_sockets log].
  unfold readyStateOf in Hrs.
  destruct (nth_error (sockets s) id) as [w|] eqn:Hw; [|discriminate].
  exact (frames_update_append _ _ _ _ Hw).
Qed.

Lemma framesSent_step (s s' : state) (e : event) :
  step s e = Some s' ->
  (Traces.is_send e = false -> framesSent s' = framesSent s)
  /\ (length (framesSent s) <= length (framesSent s')
      <= length (framesSent s) + (if Traces.is_send e then 1 else 0))%nat.
Proof.
  intros Hs.
  assert (Hsame : framesSent s' = framesSent s ->
    (Traces.is_send e = false -> framesSent s' = framesSent s)
    /\ (length (framesSent s) <= length (framesSent s')
        <= length (framesSent s) + (if Traces.is_send e then 1 else 0))%nat).
  { intros ->. split; [auto | lia]. }
  destruct e as [throws|throws|id|id data parsed|id cd reason|id msg|ev];
    simpl in Hs.
  - injection Hs as <-. apply Hsame, framesSent_connect.
  - destruct (intervals s); [discriminate|]. injection Hs as <-.
    apply Hsame. unfold reconnectTick. now rewrite framesSent_connect.
  - destruct (readyStateOf s id) as [[]|]; try discriminate.
    injection Hs as <-. apply Hsame.
    rewrite <- (framesSent_set_readyState id OPEN s).
    unfold framesSent, handleOpen. cbn.
    destruct (wsReconnectInterval s); reflexivity.
  - destruct (readyStateOf s id) as [[]|]; try discriminate.
    injection Hs as <-. apply Hsame. destruct parsed; reflexivity.
  - assert (Hc : framesSent (handleClose cd reason (set_readyState id CLOSED s))
                 = framesSent s).
    { rewrite <- (framesSent_set_readyState id CLOSED s).
      unfold framesSent, handleClose.
      now rewrite (proj2 (setupReconnection_fields _)). }
    destruct (readyStateOf s id) as [[]|]; try discriminate;
      injection Hs as <-; apply Hsame, Hc.
  - assert (He : framesSent (handleError msg (set_readyState id CLOSING s))
                 = framesSent s).
    { rewrite <- (framesSent_set_readyState id CLOSING s).
      unfold framesSent, handleError. destruct (str_includes _ _); reflexivity. }
    destruct (readyStateOf s id) as [[]|]; try discriminate;
      injection Hs as <-; apply Hsame, He.
  - injection Hs as <-. split; [discriminate|]. simpl.
    destruct (framesSent_send ev s) as [H|H]; rewrite H; lia.
Qed.

(** X21. Frames reach a socket through [send] and in no other way, and
    each call of [send] hands over at most one: along any trace the number
    of frames handed to sockets never decreases and grows by at most the
    number of [send] calls in the trace.  Connecting, ticking, opening,
    closing, errors and inbound messages leave the frames as they are, so
    a batch dropped while disconnected is not sent later. *)
Theorem frames_only_from_send (tr : list event) (s s' : state) :
  run s tr = Some s' ->
  (length (framesSent s) <= length (framesSent s')
   <= length (framesSent s) + Traces.count_sends tr)%nat
  /\ (Traces.count_sends tr = 0%nat -> framesSent s' = framesSent s).
Proof.
  revert s. induction tr as [|e tr IH]; simpl; intros s Hr.
  - injection Hr as <-. unfold Traces.count_sends. simpl. split; [lia|auto].
  - destruct (step s e) as [s1|] eqn:Hs; [|discriminate].
    destruct (framesSent_step s s1 e Hs) as [Hsame Hlen].
    destruct (IH s1 Hr) as [IHlen IHsame].
    unfold Traces.count_sends in *. simpl.
    destruct (Traces.is_send e); simpl.
    + split; [lia | discriminate].
    + split; [lia|]. intros H0. rewrite (IHsame H0). now apply Hsame.
Qed.

Lemma frames_only_from_send_witness :
  exists s',
    run (constructor "ws://127.0.0.1:13123")
        (Samples.stalled_reconnect ++ [Send Samples.pressA; SockOpen 2])
    = Some s'
    /\ (length (framesSent (constructor "ws://127.0.0.1:13123"))
        <= length (framesSent s')
        <= length (framesSent (constructor "ws://127.0.0.1:13123"))
           + Traces.count_sends
               (Samples.stalled_reconnect ++ [Send Samples.pressA; SockOpen 2]))%nat.
Proof.
  eexists. split; [vm_compute; reflexivity|].
  apply (frames_only_from_send
           (Samples.stalled_reconnect ++ [Send Samples.pressA; SockOpen 2])
           (constructor "ws://127.0.0.1:13123")).
  vm_compute. reflexivity.
Defined.

Lemma close_step (s s' : state) (id cd : nat) (reason : string) :
  step s (SockClose id cd reason) = Some s' ->
  s' = handleClose cd reason (set_readyState id CLOSED s)
  /\ exists rs, readyStateOf s id = Some rs /\ rs <> CLOSED.
Proof.
  simpl. destruct (readyStateOf s id) as [[]|]; try discriminate;
    intros H; injection H as <-; split; try reflexivity;
    eexists; split; try reflexivity; discriminate.
Qed.

Lemma handleClose_timer (cd : nat) (reason : string) (s : state) :
  timer_invariant s ->
  exists t, wsReconnectInterval (handleClose cd reason s) = Some t
            /\ intervals (handleClose cd reason s) = [t].
Proof.
  intros Hinv.
  assert (Hinv' : timer_invariant (handleClose cd reason s)).
  { unfold handleClose. apply setupReconnection_invariant. exact Hinv. }
  destruct (handleClose_fields cd reason s) as [_ [t Ht]].
  exists t. split; [exact Ht|].
  unfold timer_invariant in Hinv'. now rewrite Ht in Hinv'.
Qed.

Lemma handleClose_sockets (cd : nat) (reason : string) (s : state) :
  sockets (handleClose cd reason s) = sockets s.
Proof.
  unfold handleClose. now rewrite (proj2 (setupReconnection_fields _)).
Qed.

Lemma step_without_handle (s s' : state) (e : event) :
  ws s = None ->
  Traces.is_connect e = false ->
  step s e = Some s' ->
  ws s' = None /\ framesSent s' = framesSent s.
Proof.
  intros Hws Hc Hs.
  destruct e as [throws|throws|id|id data parsed|id cd reason|id msg|ev];
    try discriminate Hc.
  - split; [|now apply (framesSent_step s s' _ Hs)].
    simpl in Hs. destruct (readyStateOf s id) as [[]|]; try discriminate.
    injection Hs as <-. unfold handleOpen. cbn.
    destruct (wsReconnectInterval s); exact Hws.
  - split; [|now apply (framesSent_step s s' _ Hs)].
    simpl in Hs. destruct (readyStateOf s id) as [[]|]; try discriminate.
    injection Hs as <-. destruct parsed; exact Hws.
  - split; [|now apply (framesSent_step s s' _ Hs)].
    destruct (close_step s s' id cd reason Hs) as [-> _].
    apply handleClose_fields.
  - split; [|now apply (framesSent_step s s' _ Hs)].
    simpl in Hs.
    destruct (readyStateOf s id) as [[]|]; try discriminate;
      injection Hs as <-; unfold handleError;
      destruct (str_includes _ _); exact Hws.
  - simpl in Hs. injection Hs as <-. unfold send. rewrite Hws.
    split; [exact Hws | reflexivity].
Qed.

Lemma run_without_handle (tr : list event) (s s' : state) :
  ws s = None ->
  forallb (fun e => negb (Traces.is_connect e)) tr = true ->
  run s tr = Some s' ->
  ws s' = None /\ framesSent s' = framesSent s.
Proof.
  revert s. induction tr as [|e tr IH]; simpl; intros s Hws Hall Hr.
  - injection Hr as <-. auto.
  - apply andb_true_iff in Hall. destruct Hall as [He Hall].
    apply negb_true_iff in He.
    destruct (step s e) as [s1|] eqn:Hs; [|discriminate].
    destruct (step_without_handle s s1 e Hws He Hs) as [Hws1 Hf1].
    destruct (IH s1 Hws1 Hall Hr) as [Hws' Hf']. split; [exact Hws'|].
    now rewrite Hf', Hf1.
Qed.

(** X22. The close of any socket disconnects the manager, whether or not
    it is the socket the manager holds: the handle is cleared, a
    reconnection timer is left armed and the other sockets are untouched.
    From then on, until [connect()] runs again through a tick of the
    timer or a call, the manager stays disconnected and every batch sent
    is dropped, whatever the sockets report meanwhile.  A socket that is
    still open is thereby abandoned when an older one closes. *)
Theorem close_of_any_socket_disconnects
      (s s' : state) (id cd : nat) (reason : string) :
  timer_invariant s ->
  step s (SockClose id cd reason) = Some s' ->
  connectionState s' = Disconnected
  /\ (exists t, wsReconnectInterval s' = Some t /\ intervals s' = [t])
  /\ (forall j, j <> id -> nth_error (sockets s') j = nth_error (sockets s) j)
  /\ (forall ev, framesSent (send ev s') = framesSent s')
  /\ (forall tr s'',
        forallb (fun e => negb (Traces.is_connect e)) tr = true ->
        run s' tr = Some s'' ->
        ws s'' = None
        /\ connectionState s'' = Disconnected
        /\ framesSent s'' = framesSent s').
Proof.
  intros Hinv Hs. destruct (close_step s s' id cd reason Hs) as [-> _].
  assert (Hws : ws (handleClose cd reason (set_readyState id CLOSED s)) = None)
    by apply handleClose_fields.
  split; [unfold connectionState; now rewrite Hws|].
  split; [apply handleClose_timer; exact Hinv|].
  split; [|split].
  - intros j Hj. rewrite handleClose_sockets.
    cbn [set_readyState sockets set_sockets].
    apply nth_error_update_other. congruence.
  - intros ev. unfold send. rewrite Hws. reflexivity.
  - intros tr s'' Hall Hr.
    destruct (run_without_handle tr _ s'' Hws Hall Hr) as [Hws' Hf].
    split; [exact Hws'|]. split; [|exact Hf].
    unfold connectionState. now rewrite Hws'.
Qed.

Lemma close_of_any_socket_disconnects_witness :
  run (constructor "ws://127.0.0.1:13123") Traces.stale_timeout
  = Some Traces.before_stale_close
  /\ connectionState Traces.before_stale_close = Connected
  /\ exists s',
       step Traces.before_stale_close (SockClose 1 1006 "") = Some s'
       /\ connectionState s' = Disconnected
       /\ nth_error (sockets s') 2 = Some (mkWebSocket OPEN [])
       /\ exists s'',
            run s' [Send Samples.pressA; SockMessage 2 "ok" None;
                    Send Samples.leftX_half] = Some s''
            /\ framesSent s'' = framesSent s'.
Proof.
  split; [vm_compute; reflexivity|].
  split; [vm_compute; reflexivity|].
  exists (handleClose 1006 "" (set_readyState 1 CLOSED Traces.before_stale_close)).
  assert (Hstep : step Traces.before_stale_close (SockClose 1 1006 "")
                  = Some (handleClose 1006 ""
                            (set_readyState 1 CLOSED Traces.before_stale_close)))
    by (vm_compute; reflexivity).
  assert (Hinv : timer_invariant Traces.before_stale_close)
    by (vm_compute; reflexivity).
  destruct (close_of_any_socket_disconnects _ _ _ _ _ Hinv Hstep)
    as (Hd & _ & _ & _ & Htr).
  split; [exact Hstep|]. split; [exact Hd|].
  split; [vm_compute; reflexivity|].
  eexists. split; [vm_compute; reflexivity|].
  apply (Htr [Send Samples.pressA; SockMessage 2 "ok" None;
              Send Samples.leftX_half]);
    [reflexivity | vm_compute; reflexivity].
Defined.

Lemma nth_error_snoc {A : Type} (l : list A) (x : A) :
  nth_error (l ++ [x]) (length l) = Some x.
Proof.
  rewrite nth_error_app2 by lia. now rewrite Nat.sub_diag.
Qed.

(** X23. Reconnection brings the manager back.  From any reachable state
    in which it is connected: when the held socket closes, the timer
    ticks and the socket constructed by that tick opens, the manager is
    connected again on the new socket with no timer armed, and the next
    batch is handed to the new socket as its first frame. *)
Theorem reconnects_after_close
      (url : string) (tr : list event) (s : state) (id cd : nat)
      (reason : string) (batch : list json) :
  run (constructor url) tr = Some s ->
  connectionState s = Connected ->
  ws s = Some id ->
  let fresh := length (sockets s) in
  exists s3,
    run s [SockClose id cd reason; Tick false; SockOpen fresh] = Some s3
    /\ connectionState s3 = Connected
    /\ ws s3 = Some fresh
    /\ wsReconnectInterval s3 = None
    /\ intervals s3 = []
    /\ nth_error (sockets (send (JArr batch) s3)) fresh
       = Some (mkWebSocket OPEN [Traces.frame_of batch]).
Proof.
  intros Hr Hc Hid fresh.
  assert (Hinv : timer_invariant s)
    by (apply (run_timer_invariant tr (constructor url)); [reflexivity|exact Hr]).
  destruct (connected_inv s Hc) as (id' & w & Hid' & Hw & Hopen).
  assert (id' = id) by congruence. subst id'.
  assert (Hrs : readyStateOf s id = Some OPEN)
    by (unfold readyStateOf; rewrite Hw; simpl; now rewrite Hopen).
  (* the close *)
  set (s1 := handleClose cd reason (set_readyState id CLOSED s)).
  assert (H1 : step s (SockClose id cd reason) = Some s1)
    by (simpl; now rewrite Hrs).
  assert (Hinv1 : timer_invariant s1)
    by exact (step_timer_invariant _ _ _ Hinv H1).
  destruct (handleClose_timer cd reason (set_readyState id CLOSED s) Hinv)
    as (t & Ht1 & Hi1).
  fold s1 in Ht1, Hi1.
  assert (Hws1 : ws s1 = None) by apply handleClose_fields.
  assert (Hlen1 : length (sockets s1) = fresh).
  { unfold s1. rewrite handleClose_sockets.
    cbn [set_readyState sockets set_sockets]. apply length_update. }
  (* the tick *)
  set (s2 := reconnectTick false s1).
  assert (H2 : step s1 (Tick false) = Some s2)
    by (simpl; now rewrite Hi1).
  assert (Hinv2 : timer_invariant s2)
    by exact (step_timer_invariant _ _ _ Hinv1 H2).
  assert (Hs2 : ws s2 = Some fresh
                /\ sockets s2 = (sockets s1 ++ [mkWebSocket CONNECTING []])%list).
  { unfold s2, reconnectTick, connect. cbn [ws log]. rewrite Hws1.
    cbn. now rewrite Hlen1. }
  destruct Hs2 as [Hws2 Hsock2].
  assert (Hrs2 : readyStateOf s2 fresh = Some CONNECTING).
  { unfold readyStateOf. rewrite Hsock2, <- Hlen1, nth_error_snoc.
    reflexivity. }
  (* the open *)
  set (s3 := handleOpen (set_readyState fresh OPEN s2)).
  assert (H3 : step s2 (SockOpen fresh) = Some s3)
    by (simpl; now rewrite Hrs2).
  destruct (handleOpen_clears (set_readyState fresh OPEN s2) Hinv2)
    as [Ht3 Hi3].
  fold s3 in Ht3, Hi3.
  assert (Hs3 : ws s3 = Some fresh
                /\ nth_error (sockets s3) fresh = Some (mkWebSocket OPEN [])).
  { unfold s3, handleOpen. cbn [log wsReconnectInterval set_readyState set_sockets].
    assert (Hn : nth_error (update fresh (fun w => mkWebSocket OPEN (frames w))
                                  (sockets s2)) fresh
                 = Some (mkWebSocket OPEN [])).
    { apply (nth_error_update_same
               (fun w => mkWebSocket OPEN (frames w)) (sockets s2) fresh
               (mkWebSocket CONNECTING [])).
      rewrite Hsock2, <- Hlen1. apply nth_error_snoc. }
    destruct (wsReconnectInterval s2); cbn; auto. }
  destruct Hs3 as [Hws3 Hw3].
  exists s3. split.
  { cbn [run]. rewrite H1. cbn [run]. rewrite H2. cbn [run]. now rewrite H3. }
  split.
  { unfold connectionState, readyStateOf. now rewrite Hws3, Hw3. }
  split; [exact Hws3|]. split; [exact Ht3|]. split; [exact Hi3|].
  exact (proj2 (send_on_open (JArr batch) s3 fresh _ Hws3 Hw3 eq_refl)).
Qed.

Lemma reconnects_after_close_witness :
  let s := GamepadServer.wsHandler Samples.connected in
  exists s3,
    run s [SockClose 0 1006 ""; Tick false; SockOpen (length (sockets s))]
    = Some s3
    /\ connectionState s3 = Connected
    /\ ws s3 = Some (length (sockets s))
    /\ wsReconnectInterval s3 = None
    /\ intervals s3 = []
    /\ nth_error (sockets (send (JArr [Samples.pressA]) s3)) (length (sockets s))
       = Some (mkWebSocket OPEN [Traces.frame_of [Samples.pressA]]).
Proof.
  apply (reconnects_after_close "ws://127.0.0.1:13123"
           [Connect false; SockOpen 0]
           (GamepadServer.wsHandler Samples.connected) 0 1006 ""
           [Samples.pressA]); vm_compute; reflexivity.
Defined.

(** C8 fails on the code: the [open] listener cancels the timer whichever
    socket opens, and the [close] listener clears the handle whichever
    socket closes.  When the second attempt of the stalled reconnection
    times out and closes, and the third socket then opens, the pending
    timer is cancelled and "Connected" is logged while the handle is null:
    the manager is disconnected with no timer left to reconnect it, and
    the next batch is dropped as "not initialized". *)
Theorem open_of_unheld_socket_cancels_timer :
  option_map (fun s => (ws s, wsReconnectInterval s, intervals s,
                        connectionState s))
    (run (constructor "ws://127.0.0.1:13123") (firstn 7 Traces.stale_open))
  = Some (None, Some 0%nat, [0%nat], Disconnected)
  /\ option_map (fun s => (ws s, wsReconnectInterval s, intervals s,
                           connectionState s, map readyState (sockets s),
                           last (console s) AlreadyConnected))
       (run (constructor "ws://127.0.0.1:13123") Traces.stale_open)
     = Some (None, None, [], Disconnected, [CLOSED; CLOSED; OPEN], ConnectedOk)
  /\ option_map (fun s => (framesSent (send Samples.pressA s),
                           last (console (send Samples.pressA s))
                                AlreadyConnected))
       (run (constructor "ws://127.0.0.1:13123") Traces.stale_open)
     = Some ([], NotInitialized).
Proof. vm_compute. repeat split. Qed.

End Traces.
